(** * Online learning to rank: the feedback pipeline of [oltr/online_ltr.py]

    A shallow embedding of the classes [OnlineLTR] and
    [ExploreThenExploitOLTR] and of the numpy operations they call, followed by
    the properties of the feedback-to-training-data pipeline.

    Conventions.
    - Python exceptions are the [Raise] case of [result]; a method that mutates
      [self] returns the new [self] next to its result, also when it raises.
    - Row offsets, local document indices and positions are natural numbers
      (they come from [np.cumsum], [np.random.permutation], [np.lexsort] and
      [np.where], none of which yields a negative number).
    - Relevance labels and click values are integers.
    - Ranker scores and tie-breakers are only ever negated and compared by the
      code; they are represented by integers, through the order embedding of
      the non-NaN binary64 values that commutes with negation.
    - The values drawn from [np.random] during one call are an explicit
      argument, of type [Draws]. *)

From Stdlib Require Import String.
From Stdlib Require Import List ZArith Lia Bool Arith Permutation Sorted.
From Stdlib Require Import Floats Uint63.
Import ListNotations.

Set Implicit Arguments.

(** ** Exceptions *)

Inductive exception : Type :=
| ValueError_update_before_generate
    (* 'OnlineLTR.generate_training_data_from_clicks()should be called before
       OnlineLTR.update_ranker().' *)
| ValueError_concatenate     (* np.concatenate of an empty sequence *)
| ValueError_lexsort         (* np.lexsort on keys of different shapes *)
| ValueError_choice          (* np.random.choice(0, size) with size > 0 *)
| IndexError
| CollaboratorFailure.       (* raised inside the ranker or the click model *)

Inductive result (A : Type) : Type :=
| Ok (a : A)
| Raise (e : exception).

Arguments Ok {A} a.
Arguments Raise {A} e.

Definition bind {A B : Type} (c : result A) (k : A -> result B) : result B :=
  match c with
  | Ok a => k a
  | Raise e => Raise e
  end.

Notation "x <- c1 ;; c2" := (bind c1 (fun x => c2))
  (at level 61, c1 at next level, right associativity).
Notation "' pat <- c1 ;; c2" :=
  (bind c1 (fun x => match x with pat => c2 end))
  (at level 61, pat pattern, c1 at next level, right associativity).

(** A call into a collaborator (ranker, click model, metric): [None] stands
    for an exception raised inside it. *)
Definition called {A : Type} (o : option A) : result A :=
  match o with
  | Some a => Ok a
  | None => Raise CollaboratorFailure
  end.

(** [[f(x) for x in xs]], stopping at the first exception. *)
Fixpoint mapM {A B : Type} (f : A -> result B) (xs : list A) : result (list B) :=
  match xs with
  | [] => Ok []
  | x :: rest =>
      y <- f x ;;
      ys <- mapM f rest ;;
      Ok (y :: ys)
  end.

(** ** numpy and Python sequence operations *)

(** [a[i]] for a non-negative [i]. *)
Definition getitem {A : Type} (a : list A) (i : nat) : result A :=
  match nth_error a i with
  | Some x => Ok x
  | None => Raise IndexError
  end.

(** [a[s:e]] for non-negative bounds: Python clamps a slice to the sequence. *)
Definition slice {A : Type} (s e : nat) (a : list A) : list A :=
  firstn (e - s) (skipn s a).

(** [a[idx]] for an integer index array [idx]. *)
Definition take {A : Type} (a : list A) (idx : list nat) : result (list A) :=
  mapM (getitem a) idx.

(** [np.concatenate(arrays)]: an empty sequence of arrays is a [ValueError]. *)
Definition np_concatenate {A : Type} (arrays : list (list A)) : result (list A) :=
  match arrays with
  | [] => Raise ValueError_concatenate
  | _ :: _ => Ok (concat arrays)
  end.

(** [np.cumsum(a).tolist()]. *)
Fixpoint np_cumsum_from (acc : nat) (a : list nat) : list nat :=
  match a with
  | [] => []
  | x :: rest => (acc + x) :: np_cumsum_from (acc + x) rest
  end.

Definition np_cumsum (a : list nat) : list nat := np_cumsum_from 0 a.

(** Python's [sum(click)]. *)
Definition py_sum (click : list Z) : Z := fold_left Z.add click 0%Z.

(** [np.where(click)[0]]: the positions of the nonzero entries, ascending. *)
Fixpoint np_where_from (i : nat) (click : list Z) : list nat :=
  match click with
  | [] => []
  | c :: rest =>
      if (c =? 0)%Z then np_where_from (S i) rest
      else i :: np_where_from (S i) rest
  end.

Definition np_where (click : list Z) : list nat := np_where_from 0 click.

(** [a[-1]]. *)
Fixpoint last_item {A : Type} (a : list A) : result A :=
  match a with
  | [] => Raise IndexError
  | x :: rest =>
      match rest with
      | [] => Ok x
      | _ :: _ => last_item rest
      end
  end.

(** *** [np.lexsort]

    [np.lexsort((a, b))] sorts the positions [0..n-1] by the last key [b]
    first and by [a] among equal [b]; it does so by one stable indirect sort
    per key, from the first key to the last. *)

Fixpoint insert_by (key : nat -> Z) (x : nat) (l : list nat) : list nat :=
  match l with
  | [] => [x]
  | y :: rest =>
      if (key x <=? key y)%Z then x :: y :: rest
      else y :: insert_by key x rest
  end.

(** A stable indirect sort of the positions [l] by [key]. *)
Definition argsort_stable (key : nat -> Z) (l : list nat) : list nat :=
  fold_right (insert_by key) [] l.

Definition key_of (a : list Z) (i : nat) : Z := nth i a 0%Z.

Definition np_lexsort (a b : list Z) : result (list nat) :=
  if length a =? length b then
    Ok (argsort_stable (key_of b) (argsort_stable (key_of a) (seq 0 (length a))))
  else Raise ValueError_lexsort.

(** *** [np.mean] over float64

    The sum divided by the count, both in binary64.  The additions are made
    from left to right, which is the order numpy uses for fewer than eight
    entries (longer arrays are summed pairwise). *)

Definition float_of_nat (n : nat) : float :=
  PrimFloat.of_uint63 (Uint63.of_Z (Z.of_nat n)).

Definition np_sum (xs : list float) : float :=
  fold_left PrimFloat.add xs 0%float.

Definition np_mean (xs : list float) : float :=
  PrimFloat.div (np_sum xs) (float_of_nat (length xs)).

(** ** The collaborators and the data *)

Section Pipeline.

(** A feature vector (one row of the feature matrix), a trained ranker, a
    click model, the internal randomness a click model consumes in one call,
    and the two parameter dictionaries handed to LightGBM. *)
Variables Row Ranker ClickModel Noise RankerParams FitParams : Type.

(** [ranker.predict(features)], [click_model.get_click(labels)],
    [gbm.LGBMRanker(...)] on the unpacked [ranker_params], and
    [ranker.fit(X, y, group, eval_set, eval_group, ...)] on the unpacked
    [fit_params], which yields the fitted ranker; each may raise, which is
    the result [None]. *)
Variable predict : Ranker -> list Row -> option (list Z).
Variable get_click : ClickModel -> Noise -> list Z -> option (list Z).
Variable LGBMRanker : RankerParams -> option Ranker.
Variable fit : Ranker -> FitParams -> list Row -> list Z -> list nat ->
               option (list Row * list Z * list nat) -> option Ranker.

(** ['early_stopping_rounds' in fit_params]. *)
Variable has_early_stopping_rounds : FitParams -> bool.

(** Modelled from the spec: the query collection ([oltr.utils.queries.Queries]
    is not among the sources).  One global feature matrix and one relevance
    vector over all documents; [query_indptr] maps a query id to its contiguous
    row range, whose width is the query's document count. *)
Record Queries : Type := {
  feature_vectors : list Row;
  relevance_scores : list Z;
  query_indptr : list nat
}.

(** Modelled from the spec: [qset.n_queries], the query count. *)
Definition n_queries (qset : Queries) : nat := length (query_indptr qset) - 1.

(** Modelled from the spec: the row range of [qset[qid]], from the global
    row-offset index. *)
Definition query_range (qset : Queries) (qid : nat) : result (nat * nat) :=
  s <- getitem (query_indptr qset) qid ;;
  e <- getitem (query_indptr qset) (S qid) ;;
  Ok (s, e).

(** Modelled from the spec: [qset[qid].document_count()], the width of the
    row range. *)
Definition document_count (qset : Queries) (qid : nat) : result nat :=
  ' (s, e) <- query_range qset qid ;;
  Ok (e - s).

(** Modelled from the spec: [qset[qid].relevance_scores], the relevance
    labels of the query's rows. *)
Definition query_relevance_scores (qset : Queries) (qid : nat) : result (list Z) :=
  ' (s, e) <- query_range qset qid ;;
  Ok (slice s e (relevance_scores qset)).

(** Modelled from the spec: [qset[query_ids]], the collection made of the
    listed queries, in order, with its own row offsets. *)
Definition select (qset : Queries) (query_ids : list nat) : result Queries :=
  ranges <- mapM (query_range qset) query_ids ;;
  Ok {| feature_vectors :=
          concat (map (fun r => slice (fst r) (snd r) (feature_vectors qset)) ranges);
        relevance_scores :=
          concat (map (fun r => slice (fst r) (snd r) (relevance_scores qset)) ranges);
        query_indptr :=
          0 :: np_cumsum (map (fun r => snd r - fst r) ranges) |}.

(** What [np.random] and the click model's own generator yield during one
    method call. *)
Record Draws : Type := {
  (* np.random.choice(a, size) *)
  choice : nat -> nat -> list nat;
  (* the i-th np.random.permutation(n) of the call *)
  permutation : nat -> nat -> list nat;
  (* np.random.rand(n) *)
  rand : nat -> list Z;
  (* the randomness of the i-th get_click of the call *)
  noise : nat -> Noise
}.

(** The documented behaviour of the numpy generators. *)
Definition numpy_contract (d : Draws) : Prop :=
  (forall a size, 0 < a \/ size = 0 ->
     length (choice d a size) = size /\ Forall (fun i => i < a) (choice d a size)) /\
  (forall i n, Permutation (permutation d i n) (seq 0 n)) /\
  (forall n, length (rand d n) = n).

(** One element of [observed_training_data]: the tuple
    [(train_indices, train_labels, train_q_list_sizes)]. *)
Definition Observed : Type := (list (list nat) * list Z * list nat)%type.

Definition otd_indices (otd : Observed) : list (list nat) := fst (fst otd).
Definition otd_labels (otd : Observed) : list Z := snd (fst otd).
Definition otd_sizes (otd : Observed) : list nat := snd otd.

(** ** class OnlineLTR *)

Record OnlineLTR : Type := {
  train_qset : Queries;
  valid_qset : Queries;
  test_qset : Queries;
  observed_training_data : list Observed
}.

(** [__init__], after the feature adjustment of the three collections. *)
Definition OnlineLTR_init (train valid test : Queries) : OnlineLTR :=
  {| train_qset := train; valid_qset := valid; test_qset := test;
     observed_training_data := [] |}.

(** [np.random.choice(a, size)] refuses to draw from an empty population. *)
Definition np_random_choice (d : Draws) (a size : nat) : result (list nat) :=
  if (a =? 0) && negb (size =? 0) then Raise ValueError_choice
  else Ok (choice d a size).

Definition sample_query_ids (self : OnlineLTR) (num_queries : nat)
    (data : string) (d : Draws) : result (list nat) :=
  let qset := train_qset self in
  let qset := if String.eqb data "valid"%string then valid_qset self else qset in
  let qset := if String.eqb data "test"%string then test_qset self else qset in
  np_random_choice d (n_queries qset) num_queries.

Definition OnlineLTR_get_labels_and_rankings (self : OnlineLTR)
    (ranker : option Ranker) (num_queries : nat) (d : Draws)
    : result (list nat * list (list Z) * list (list nat)) :=
  query_ids <- sample_query_ids self num_queries "train"%string d ;;
  n_docs_per_query <- mapM (document_count (train_qset self)) query_ids ;;
  let indices := 0 :: np_cumsum n_docs_per_query in
  labels <- mapM (query_relevance_scores (train_qset self)) query_ids ;;
  rankings <-
    match ranker with
    | None =>
        Ok (map (fun i => permutation d i (nth i n_docs_per_query 0))
                (seq 0 (length n_docs_per_query)))
    | Some rk =>
        sub <- select (train_qset self) query_ids ;;
        scores <- called (predict rk (feature_vectors sub)) ;;
        let tie_breakers := rand d (length scores) in
        mapM (fun i =>
                s <- getitem indices i ;;
                e <- getitem indices (S i) ;;
                np_lexsort (slice s e tie_breakers)
                           (map Z.opp (slice s e scores)))
             (seq 0 num_queries)
    end ;;
  Ok (query_ids, labels, rankings).

Definition apply_click_model_to_labels_and_scores (click_model : ClickModel)
    (labels : list (list Z)) (rankings : list (list nat)) (d : Draws)
    : result (list (list Z)) :=
  mapM (fun i =>
          l <- getitem labels i ;;
          r <- getitem rankings i ;;
          shown <- take l r ;;
          called (get_click click_model (noise d i) shown))
       (seq 0 (length rankings)).

(** The body of the loop over [clicks]: the last observed position of one
    ranking. *)
Definition last_observed (click : list Z) : result nat :=
  if (py_sum click =? 0)%Z then Ok (length click)
  else
    j <- last_item (np_where click) ;;
    Ok (j + 1).

(** The loop over [clicks], building [last_pos] and [train_labels]. *)
Fixpoint truncate_clicks (clicks : list (list Z))
    : result (list nat * list (list Z)) :=
  match clicks with
  | [] => Ok ([], [])
  | click :: rest =>
      t <- last_observed click ;;
      ' (last_pos, train_labels) <- truncate_clicks rest ;;
      Ok (t :: last_pos, firstn t click :: train_labels)
  end.

(** [[query_indptr[qid] + rankings[i][:last_pos[i]]
      for i, qid in enumerate(query_ids)]]. *)
Definition remap (qset : Queries) (query_ids : list nat)
    (rankings : list (list nat)) (last_pos : list nat)
    : result (list (list nat)) :=
  mapM (fun iq =>
          off <- getitem (query_indptr qset) (snd iq) ;;
          r <- getitem rankings (fst iq) ;;
          t <- getitem last_pos (fst iq) ;;
          Ok (map (Nat.add off) (firstn t r)))
       (combine (seq 0 (length query_ids)) query_ids).

Definition generate_training_data_from_clicks (self : OnlineLTR)
    (query_ids : list nat) (clicks : list (list Z)) (rankings : list (list nat))
    : result unit * OnlineLTR :=
  let computed :=
    ' (last_pos, train_labels) <- truncate_clicks clicks ;;
    train_indices <- remap (train_qset self) query_ids rankings last_pos ;;
    train_features <- mapM (take (feature_vectors (train_qset self))) train_indices ;;
    let train_q_list_sizes := map (@length Row) train_features in
    _ <- np_concatenate train_features ;;
    train_labels <- np_concatenate train_labels ;;
    Ok (train_indices, train_labels, train_q_list_sizes) in
  match computed with
  | Raise e => (Raise e, self)
  | Ok otd =>
      (Ok tt,
       {| train_qset := train_qset self; valid_qset := valid_qset self;
          test_qset := test_qset self;
          observed_training_data := observed_training_data self ++ [otd] |})
  end.

(** The first statement of [update_ranker]: the training set assembled from
    the whole history. *)
Definition training_set (self : OnlineLTR)
    : result (list Row * list Z * list nat) :=
  match observed_training_data self with
  | [] => Raise ValueError_update_before_generate
  | _ :: _ =>
      let train_indices :=
        flat_map otd_indices (observed_training_data self) in
      rows <- mapM (take (feature_vectors (train_qset self))) train_indices ;;
      train_features <- np_concatenate rows ;;
      train_labels <- np_concatenate (map otd_labels (observed_training_data self)) ;;
      train_q_list_sizes <-
        np_concatenate (map otd_sizes (observed_training_data self)) ;;
      Ok (train_features, train_labels, train_q_list_sizes)
  end.

Definition OnlineLTR_update_ranker (self : OnlineLTR)
    (ranker_params : RankerParams) (fit_params : FitParams) (d : Draws)
    : result Ranker :=
  ' (train_features, train_labels, train_q_list_sizes) <- training_set self ;;
  ranker <- called (LGBMRanker ranker_params) ;;
  if has_early_stopping_rounds fit_params then
    last_otd <- last_item (observed_training_data self) ;;
    let num_queries := length (otd_indices last_otd) in
    valid_query_ids <- sample_query_ids self num_queries "valid"%string d ;;
    valid_rel <- mapM (query_relevance_scores (valid_qset self)) valid_query_ids ;;
    valid_labels <- np_concatenate valid_rel ;;
    valid_sub <- select (valid_qset self) valid_query_ids ;;
    let valid_features := feature_vectors valid_sub in
    valid_q_list_sizes <- mapM (document_count (valid_qset self)) valid_query_ids ;;
    called (fit ranker fit_params train_features train_labels
                train_q_list_sizes
                (Some (valid_features, valid_labels, valid_q_list_sizes)))
  else
    called (fit ranker fit_params train_features train_labels
                train_q_list_sizes None).

(** The first half of [update_learner], "Collect feedback", for the ranker
    that [get_labels_and_rankings] ends up using. *)
Definition OnlineLTR_collect_feedback (self : OnlineLTR)
    (ranker : option Ranker) (num_train_queries : nat)
    (click_model : ClickModel) (d : Draws) : result unit * OnlineLTR :=
  match OnlineLTR_get_labels_and_rankings self ranker num_train_queries d with
  | Raise e => (Raise e, self)
  | Ok (train_query_ids, train_labels, train_rankings) =>
      match apply_click_model_to_labels_and_scores
              click_model train_labels train_rankings d with
      | Raise e => (Raise e, self)
      | Ok train_clicks =>
          generate_training_data_from_clicks
            self train_query_ids train_clicks train_rankings
      end
  end.

Definition OnlineLTR_update_learner (self : OnlineLTR)
    (ranker : option Ranker) (num_train_queries : nat)
    (click_model : ClickModel) (ranker_params : RankerParams)
    (fit_params : FitParams) (d d' : Draws) : result Ranker * OnlineLTR :=
  match OnlineLTR_collect_feedback self ranker num_train_queries click_model d with
  | (Raise e, self') => (Raise e, self')
  | (Ok _, self') =>
      (OnlineLTR_update_ranker self' ranker_params fit_params d', self')
  end.

(** ** class ExploreThenExploitOLTR(OnlineLTR) *)

Record ExploreThenExploitOLTR : Type := {
  base : OnlineLTR;
  num_explore_iterations : Z;
  iteration : Z
}.

Definition ExploreThenExploitOLTR_init (train : Queries)
    (num_explore : Z) (valid test : Queries) : ExploreThenExploitOLTR :=
  {| base := OnlineLTR_init train valid test;
     num_explore_iterations := num_explore;
     iteration := 0 |}.

Definition with_base (self : ExploreThenExploitOLTR) (b : OnlineLTR)
    : ExploreThenExploitOLTR :=
  {| base := b; num_explore_iterations := num_explore_iterations self;
     iteration := iteration self |}.

(** The local [ranker_] of the overriding [get_labels_and_rankings]. *)
Definition ranker_ (self : ExploreThenExploitOLTR) (ranker : option Ranker)
    : option Ranker :=
  if (iteration self <? num_explore_iterations self)%Z then None else ranker.

Definition ExploreThenExploitOLTR_get_labels_and_rankings
    (self : ExploreThenExploitOLTR) (ranker : option Ranker)
    (num_queries : nat) (d : Draws)
    : result (list nat * list (list Z) * list (list nat)) :=
  OnlineLTR_get_labels_and_rankings (base self) (ranker_ self ranker)
                                    num_queries d.

Definition ExploreThenExploitOLTR_update_ranker
    (self : ExploreThenExploitOLTR) (ranker_params : RankerParams)
    (fit_params : FitParams) (d : Draws)
    : result Ranker * ExploreThenExploitOLTR :=
  let self' := {| base := base self;
                  num_explore_iterations := num_explore_iterations self;
                  iteration := iteration self + 1 |} in
  (OnlineLTR_update_ranker (base self') ranker_params fit_params d, self').

(** The inherited "Collect feedback" half of [update_learner], with the
    overriding [get_labels_and_rankings]. *)
Definition ExploreThenExploitOLTR_collect_feedback
    (self : ExploreThenExploitOLTR) (ranker : option Ranker)
    (num_train_queries : nat) (click_model : ClickModel) (d : Draws)
    : result unit * ExploreThenExploitOLTR :=
  match ExploreThenExploitOLTR_get_labels_and_rankings
          self ranker num_train_queries d with
  | Raise e => (Raise e, self)
  | Ok (train_query_ids, train_labels, train_rankings) =>
      match apply_click_model_to_labels_and_scores
              click_model train_labels train_rankings d with
      | Raise e => (Raise e, self)
      | Ok train_clicks =>
          let (r, b) := generate_training_data_from_clicks
                          (base self) train_query_ids train_clicks train_rankings in
          (r, with_base self b)
      end
  end.

(** The inherited [update_learner], dispatching to the two overrides. *)
Definition ExploreThenExploitOLTR_update_learner
    (self : ExploreThenExploitOLTR) (ranker : option Ranker)
    (num_train_queries : nat) (click_model : ClickModel)
    (ranker_params : RankerParams) (fit_params : FitParams) (d d' : Draws)
    : result Ranker * ExploreThenExploitOLTR :=
  match ExploreThenExploitOLTR_collect_feedback
          self ranker num_train_queries click_model d with
  | (Raise e, self') => (Raise e, self')
  | (Ok _, self') =>
      ExploreThenExploitOLTR_update_ranker self' ranker_params fit_params d'
  end.

(** *** Successive feedback collections

    The arguments of one feedback collection, and a learner taken through a
    sequence of them; the sequence stops at the first failure. *)

Record Collection : Type := {
  call_ranker : option Ranker;
  call_num_queries : nat;
  call_click_model : ClickModel;
  call_draws : Draws
}.

Fixpoint collect_many (self : OnlineLTR) (calls : list Collection)
    : result unit * OnlineLTR :=
  match calls with
  | [] => (Ok tt, self)
  | c :: rest =>
      match OnlineLTR_collect_feedback self (call_ranker c)
              (call_num_queries c) (call_click_model c) (call_draws c) with
      | (Ok _, self') => collect_many self' rest
      | (Raise e, self') => (Raise e, self')
      end
  end.

(** ** [OnlineLTR.evaluate_ranker] *)

(** [eval_params]: the dictionary with the keys ['metric'] and ['cutoff']. *)
Record EvalParams : Type := {
  metric : list Z -> Z -> option float;
  cutoff : Z
}.

(** The first statements of [evaluate_ranker]: the collection to evaluate
    on ([query_ids=None] is [None]). *)
Definition eval_collection (self : OnlineLTR) (query_ids : option (list nat))
    (data : string) : result Queries :=
  let qset := test_qset self in
  let qset := if String.eqb data "train"%string then train_qset self else qset in
  let qset := if String.eqb data "valid"%string then valid_qset self else qset in
  match query_ids with
  | None => Ok qset
  | Some ids => select qset ids
  end.

Definition evaluate_ranker (self : OnlineLTR) (ranker : Ranker)
    (eval_params : EvalParams) (query_ids : option (list nat))
    (data : string) (d : Draws) : result float :=
  eval_qset <- eval_collection self query_ids data ;;
  scores <- called (predict ranker (feature_vectors eval_qset)) ;;
  let tie_breakers := rand d (length scores) in
  let indices := query_indptr eval_qset in
  rankings <-
    mapM (fun i =>
            s <- getitem indices i ;;
            e <- getitem indices (S i) ;;
            np_lexsort (slice s e tie_breakers) (map Z.opp (slice s e scores)))
         (seq 0 (n_queries eval_qset)) ;;
  ndcgs <-
    mapM (fun qid =>
            rel <- query_relevance_scores eval_qset qid ;;
            r <- getitem rankings qid ;;
            shown <- take rel r ;;
            called (metric eval_params shown (cutoff eval_params)))
         (seq 0 (n_queries eval_qset)) ;;
  Ok (np_mean ndcgs).

End Pipeline.

(** * The vocabulary of the properties *)

(** A click vector is binary. *)
Definition binary (click : list Z) : Prop :=
  Forall (fun c => c = 0%Z \/ c = 1%Z) click.

(** [j] is the index of the last 1 of [click]. *)
Definition is_last_one (click : list Z) (j : nat) : Prop :=
  nth j click 0%Z = 1%Z /\ forall k, j < k -> nth k click 0%Z = 0%Z.

(** Document [a] is to be shown no later than document [b]: a higher score,
    or the same score and a tie-breaker that is not larger. *)
Definition lex_before (scores tie_breakers : list Z) (a b : nat) : Prop :=
  (key_of scores a > key_of scores b)%Z \/
  (key_of scores a = key_of scores b /\
   (key_of tie_breakers a <= key_of tie_breakers b)%Z).

(** Document [a] has the higher score. *)
Definition score_above (scores : list Z) (a b : nat) : Prop :=
  (key_of scores a > key_of scores b)%Z.

(** The order a stable sort by [key] produces from a list ordered by [R]. *)
Definition refined_by (key : nat -> Z) (R : nat -> nat -> Prop) (a b : nat) : Prop :=
  (key a < key b)%Z \/ (key a = key b /\ R a b).

(** [a] comes before [b] in the ranking [r]. *)
Definition precedes (r : list nat) (a b : nat) : Prop :=
  exists l1 l2 l3, r = l1 ++ a :: l2 ++ b :: l3.

(** The ranking [r] of the documents with the given scores and tie-breakers
    is in exploitation order: it lists every document once, by score
    descending and tie-breaker ascending; when the scores are pairwise
    distinct it is the one descending-score order; and of two documents with
    the same score the one with the smaller tie-breaker comes first. *)
Definition exploitation_order (scores tie_breakers : list Z) (r : list nat)
    : Prop :=
  Permutation r (seq 0 (length scores)) /\
  StronglySorted (lex_before scores tie_breakers) r /\
  (NoDup scores ->
     StronglySorted (score_above scores) r /\
     forall r', Permutation r' (seq 0 (length scores)) ->
                StronglySorted (score_above scores) r' -> r' = r) /\
  (forall a b, In a r -> In b r ->
     key_of scores a = key_of scores b ->
     (key_of tie_breakers a < key_of tie_breakers b)%Z ->
     precedes r a b).

(** Every row offset of the collection lies within its relevance vector. *)
Definition rows_cover {Row : Type} (qset : Queries Row) : Prop :=
  Forall (fun e => e <= length (relevance_scores qset)) (query_indptr qset).

(** The total number of per-query batches held by a history. *)
Definition n_batches (history : list Observed) : nat :=
  length (flat_map otd_indices history).



(** * The training rounds of the driver *)

Section Rounds.

Variables Row Ranker ClickModel Noise RankerParams FitParams : Type.
Variable predict : Ranker -> list Row -> option (list Z).
Variable get_click : ClickModel -> Noise -> list Z -> option (list Z).
Variable LGBMRanker : RankerParams -> option Ranker.
Variable fit : Ranker -> FitParams -> list Row -> list Z -> list nat ->
               option (list Row * list Z * list nat) -> option Ranker.
Variable has_early_stopping_rounds : FitParams -> bool.


End Rounds.

(** * Further vocabulary *)

(** Every row offset of the collection lies within its feature matrix. *)
Definition features_cover {Row : Type} (qset : Queries Row) : Prop :=
  Forall (fun e => e <= length (feature_vectors qset)) (query_indptr qset).

(** The click model answers with one click per label it is shown. *)
Definition length_preserving {ClickModel Noise : Type}
    (get_click : ClickModel -> Noise -> list Z -> option (list Z)) : Prop :=
  forall click_model nz labels clicks,
    get_click click_model nz labels = Some clicks ->
    length clicks = length labels.

(** The ranker answers with one score per feature row. *)
Definition one_score_per_row {Row Ranker : Type}
    (predict : Ranker -> list Row -> option (list Z)) : Prop :=
  forall ranker X scores,
    predict ranker X = Some scores -> length scores = length X.

(** An entry of the history is consistent when its group sizes are the
    lengths of its index arrays and add up to the number of its labels. *)
Definition entry_consistent (otd : Observed) : Prop :=
  map (@length nat) (otd_indices otd) = otd_sizes otd /\
  list_sum (otd_sizes otd) = length (otd_labels otd).

(** The rankings fit the query ids: one ranking per id, of local document
    indices of that query. *)
Definition rankings_fit {Row : Type} (qset : Queries Row)
    (query_ids : list nat) (rankings : list (list nat)) : Prop :=
  length rankings = length query_ids /\
  forall i qid r,
    nth_error query_ids i = Some qid -> nth_error rankings i = Some r ->
    exists n, document_count qset qid = Ok n /\ Forall (fun x => x < n) r.

(** * A concrete setting

    The two-query collection of the end-to-end scenario (document counts 2
    and 3, relevance [[0,1]] and [[2,0,1]]), one feature per document, a
    linear ranker, a click model that clicks the first position only, and
    fixed draws. *)

Definition ex_qset : Queries Z :=
  {| feature_vectors := [10; 20; 30; 40; 50]%Z;
     relevance_scores := [0; 1; 2; 0; 1]%Z;
     query_indptr := [0; 2; 5] |}.


(** The ranker is its weight: the score of a document is weight times
    feature. *)
Definition ex_predict (w : Z) (X : list Z) : option (list Z) :=
  Some (map (Z.mul w) X).

(** The click model clicks the first position and nothing else; its noise
    says whether it crashes. *)
Definition ex_get_click (_ : unit) (crash : bool) (labels : list Z)
    : option (list Z) :=
  if crash then None
  else Some (match labels with
             | [] => []
             | _ :: rest => 1%Z :: map (fun _ => 0%Z) rest
             end).

(** A new ranker has weight 0, and fitting returns the ranker of weight 1;
    the fit parameters only say whether early stopping is requested. *)
Definition ex_LGBMRanker (_ : unit) : option Z := Some 0%Z.

Definition ex_fit (_ : Z) (_ : bool) (_ : list Z) (_ : list Z)
    (_ : list nat) (_ : option (list Z * list Z * list nat)) : option Z :=
  Some 1%Z.

Definition ex_has_early_stopping_rounds (fit_params : bool) : bool := fit_params.

(** Query ids are drawn round-robin, permutations reverse the documents,
    all tie-breakers are equal, and the click model does not crash. *)
Definition ex_draws : Draws bool :=
  {| choice := fun a size => map (fun i => i mod a) (seq 0 size);
     permutation := fun _ n => rev (seq 0 n);
     rand := fun n => repeat 0%Z n;
     noise := fun _ => false |}.

(** The same draws, with a click model that crashes on its second call. *)
Definition ex_draws_crash : Draws bool :=
  {| choice := choice ex_draws;
     permutation := permutation ex_draws;
     rand := rand ex_draws;
     noise := fun i => Nat.eqb i 1 |}.

Definition ex_learner : OnlineLTR Z := OnlineLTR_init ex_qset ex_qset ex_qset.


(** The learner after one exploratory feedback collection on two queries. *)
Definition ex_learner_1 : OnlineLTR Z :=
  {| train_qset := ex_qset; valid_qset := ex_qset; test_qset := ex_qset;
     observed_training_data := [([[1]; [4]], [1; 1]%Z, [1; 1])] |}.

Definition ex_collection (num_queries : nat) (d : Draws bool)
    : Collection Z unit bool :=
  {| call_ranker := None; call_num_queries := num_queries;
     call_click_model := tt; call_draws := d |}.

Definition half : float := 0x1p-1%float.

Definition ex_eval_params (c : float) : EvalParams :=
  {| metric := fun _ _ => Some c; cutoff := 10%Z |}.

(** The learner after a second exploratory collection, on three queries. *)
Definition ex_learner_2 : OnlineLTR Z :=
  {| train_qset := ex_qset; valid_qset := ex_qset; test_qset := ex_qset;
     observed_training_data :=
       [([[1]; [4]], [1; 1]%Z, [1; 1]);
        ([[1]; [4]; [1]], [1; 1; 1]%Z, [1; 1; 1])] |}.



(** A LightGBM constructor that raises. *)
Definition ex_LGBMRanker_crash (_ : unit) : option Z := None.

(** The explore-then-exploit learner with one exploration round, fresh and
    after two training rounds on two queries each. *)
Definition ex_ete : ExploreThenExploitOLTR Z :=
  ExploreThenExploitOLTR_init ex_qset 1 ex_qset ex_qset.


(** The explore-then-exploit learner after a round whose retraining failed. *)
Definition ex_ete_failed_fit : ExploreThenExploitOLTR Z :=
  {| base := ex_learner_1; num_explore_iterations := 1; iteration := 1 |}.
(** * Properties *)

Unset Implicit Arguments.

(** ** The error monad and the sequence operations *)

Lemma bind_ok {A B : Type} (c : result A) (k : A -> result B) (b : B) :
  bind c k = Ok b -> exists a, c = Ok a /\ k a = Ok b.
Proof.
  destruct c as [a|e]; simpl; intros H; [eauto | discriminate].
Qed.

Lemma called_ok {A : Type} (o : option A) (a : A) :
  called o = Ok a -> o = Some a.
Proof. destruct o; simpl; congruence. Qed.

Ltac inv_ok :=
  repeat match goal with
  | H : called _ = Ok _ |- _ => apply called_ok in H
  | H : bind _ _ = Ok _ |- _ =>
      let a := fresh "v" in
      let Ha := fresh "Hv" in
      apply bind_ok in H; destruct H as (a & Ha & H)
  | H : Ok _ = Ok _ |- _ => injection H as H; try subst
  | H : Raise _ = Ok _ |- _ => discriminate H
  | H : (let (_, _) := ?p in _) = Ok _ |- _ => destruct p
  | H : match ?p with pair _ _ => _ end = Ok _ |- _ => destruct p
  end.

Lemma mapM_Forall2 {A B : Type} (f : A -> result B) (xs : list A) (ys : list B) :
  mapM f xs = Ok ys -> Forall2 (fun x y => f x = Ok y) xs ys.
Proof.
  revert ys; induction xs as [|x xs IH]; simpl; intros ys H.
  - inv_ok. constructor.
  - inv_ok. constructor; auto.
Qed.

Lemma mapM_length {A B : Type} (f : A -> result B) (xs : list A) (ys : list B) :
  mapM f xs = Ok ys -> length ys = length xs.
Proof.
  intros H. apply mapM_Forall2 in H. symmetry. eapply Forall2_length; eauto.
Qed.

Lemma mapM_total {A B : Type} (f : A -> result B) (xs : list A) :
  Forall (fun x => exists y, f x = Ok y) xs -> exists ys, mapM f xs = Ok ys.
Proof.
  induction 1 as [|x xs (y & Hy) _ (ys & Hys)]; simpl.
  - eauto.
  - rewrite Hy, Hys. simpl. eauto.
Qed.

Lemma Forall2_nth_error {A B : Type} (R : A -> B -> Prop) (xs : list A)
    (ys : list B) (i : nat) (x : A) :
  Forall2 R xs ys -> nth_error xs i = Some x ->
  exists y, nth_error ys i = Some y /\ R x y.
Proof.
  intros H; revert i; induction H as [|x0 y0 xs ys Hxy _ IH]; intros [|i] Hi;
    simpl in *; try discriminate.
  - injection Hi as ->. eauto.
  - eauto.
Qed.

Lemma getitem_ok {A : Type} (a : list A) (i : nat) (x : A) :
  getitem a i = Ok x <-> nth_error a i = Some x.
Proof.
  unfold getitem; destruct (nth_error a i); split; intros H;
    try discriminate; congruence.
Qed.

Lemma take_length {A : Type} (a : list A) (idx : list nat) (rows : list A) :
  take a idx = Ok rows -> length rows = length idx.
Proof. apply mapM_length. Qed.

(** ** Truncation at the last click *)

Lemma fold_left_add_acc (l : list Z) (a : Z) :
  fold_left Z.add l a = (a + fold_left Z.add l 0)%Z.
Proof.
  revert a; induction l as [|x l IH]; simpl; intros a.
  - lia.
  - rewrite IH, (IH x). lia.
Qed.

Lemma py_sum_cons (c : Z) (click : list Z) :
  py_sum (c :: click) = (c + py_sum click)%Z.
Proof. unfold py_sum; simpl. apply fold_left_add_acc. Qed.

Lemma py_sum_binary_nonneg (click : list Z) :
  binary click -> (0 <= py_sum click)%Z.
Proof.
  induction 1 as [|c click Hc _ IH].
  - unfold py_sum; simpl; lia.
  - rewrite py_sum_cons. lia.
Qed.

Lemma py_sum_binary_zero (click : list Z) :
  binary click -> (py_sum click = 0%Z <-> Forall (fun c => c = 0%Z) click).
Proof.
  induction 1 as [|c click Hc Hb IH].
  - split; intros; [constructor | reflexivity].
  - rewrite py_sum_cons. pose proof (py_sum_binary_nonneg _ Hb) as Hs. split.
    + intros H. constructor; [lia | apply IH; lia].
    + intros H. inversion H; subst. apply IH in H3. lia.
Qed.

Lemma np_where_from_nil (click : list Z) (i : nat) :
  np_where_from i click = [] <-> Forall (fun c => c = 0%Z) click.
Proof.
  revert i; induction click as [|c click IH]; simpl; intros i.
  - split; intros; [constructor | reflexivity].
  - destruct (Z.eqb_spec c 0) as [->|Hc].
    + rewrite IH. split; intros H; [constructor; auto | now inversion H].
    + split; intros H; [discriminate | inversion H; contradiction].
Qed.

Lemma nth_all_zero (click : list Z) (k : nat) :
  Forall (fun c => c = 0%Z) click -> nth k click 0%Z = 0%Z.
Proof.
  intros H; revert k; induction H as [|c click -> _ IH]; intros [|k]; simpl; auto.
Qed.

Lemma last_item_where (click : list Z) (i j : nat) :
  last_item (np_where_from i click) = Ok j ->
  exists p, j = i + p /\ p < length click /\ nth p click 0%Z <> 0%Z /\
            forall k, p < k -> nth k click 0%Z = 0%Z.
Proof.
  revert i; induction click as [|c click IH]; simpl; intros i H.
  - discriminate.
  - destruct (Z.eqb_spec c 0) as [->|Hc].
    + apply IH in H. destruct H as (p & -> & Hp & Hnz & Hz).
      exists (S p). repeat split; simpl; auto; try lia.
      intros [|k] Hk; [lia|]. simpl. apply Hz. lia.
    + simpl in H. destruct (np_where_from (S i) click) as [|w ws] eqn:E.
      * injection H as <-. exists 0. repeat split; simpl; auto; try lia.
        intros [|k] Hk; [lia|]. simpl. apply nth_all_zero.
        apply (np_where_from_nil click (S i)). exact E.
      * rewrite <- E in H. apply IH in H. destruct H as (p & -> & Hp & Hnz & Hz).
        exists (S p). repeat split; simpl; auto; try lia.
        intros [|k] Hk; [lia|]. simpl. apply Hz. lia.
Qed.

Lemma last_item_total {A : Type} (a : list A) :
  a <> [] -> exists x, last_item a = Ok x.
Proof.
  induction a as [|x a IH]; intros H; [contradiction|].
  simpl. destruct a as [|y a]; [eauto|]. apply IH. discriminate.
Qed.

Lemma binary_nth (click : list Z) (k : nat) :
  binary click -> nth k click 0%Z = 0%Z \/ nth k click 0%Z = 1%Z.
Proof.
  intros H; revert k; induction H as [|c click Hc _ IH]; intros [|k]; simpl; auto.
Qed.

Lemma is_last_one_unique (click : list Z) (j j' : nat) :
  is_last_one click j -> is_last_one click j' -> j = j'.
Proof.
  intros [H1 H2] [H1' H2'].
  destruct (Nat.lt_trichotomy j j') as [Hlt|[Heq|Hgt]]; auto.
  - apply H2 in Hlt. lia.
  - apply H2' in Hgt. lia.
Qed.

(** The loop body never raises on a binary vector, and yields the position
    after the last 1, or the length when there is no 1. *)
Lemma last_observed_binary (click : list Z) :
  binary click ->
  exists t, last_observed click = Ok t /\ t <= length click /\
    (In 1%Z click -> exists j, is_last_one click j /\ t = j + 1) /\
    (Forall (fun c => c = 0%Z) click -> t = length click) /\
    (click <> [] -> 1 <= t).
Proof.
  intros Hb. unfold last_observed.
  destruct (Z.eqb_spec (py_sum click) 0) as [Hs|Hs].
  - apply (py_sum_binary_zero _ Hb) in Hs.
    exists (length click). repeat split; auto.
    + intros Hin. rewrite Forall_forall in Hs. apply Hs in Hin. discriminate.
    + destruct click; [congruence | simpl; lia].
  - assert (Hnz : np_where click <> []).
    { intros E. apply Hs. apply (py_sum_binary_zero _ Hb).
      apply (np_where_from_nil click 0). exact E. }
    destruct (last_item_total _ Hnz) as (j & Hj).
    unfold np_where in *. rewrite Hj. simpl.
    apply last_item_where in Hj. destruct Hj as (p & -> & Hp & Hne & Hz).
    simpl. exists (p + 1). repeat split; try lia.
    + intros _. exists p. split; [|reflexivity]. split; auto.
      destruct (binary_nth _ p Hb); [contradiction | assumption].
    + intros Hall. exfalso. apply Hne. apply nth_all_zero. exact Hall.
Qed.

Lemma mapM_nth_error {A B : Type} (f : A -> result B) (xs : list A)
    (ys : list B) (i : nat) (x : A) :
  mapM f xs = Ok ys -> nth_error xs i = Some x ->
  exists y, nth_error ys i = Some y /\ f x = Ok y.
Proof.
  intros H Hx. apply mapM_Forall2 in H.
  exact (Forall2_nth_error _ _ _ _ _ H Hx).
Qed.

Lemma nth_error_seq_from (s n i : nat) :
  i < n -> nth_error (seq s n) i = Some (s + i).
Proof.
  revert s i; induction n as [|n IH]; intros s [|i] Hi; simpl; try lia.
  - f_equal. lia.
  - rewrite IH by lia. f_equal. lia.
Qed.

Lemma nth_error_enumerate {A : Type} (l : list A) (s i : nat) (x : A) :
  nth_error l i = Some x ->
  nth_error (combine (seq s (length l)) l) i = Some (s + i, x).
Proof.
  revert s i; induction l as [|y l IH]; intros s [|i] Hi; simpl in *;
    try discriminate.
  - injection Hi as ->. do 2 f_equal. lia.
  - rewrite (IH (S s) i Hi). do 2 f_equal. lia.
Qed.

Lemma nth_error_nth_default {A : Type} (l : list A) (i : nat) (x d : A) :
  nth_error l i = Some x -> nth i l d = x.
Proof.
  revert i; induction l as [|y l IH]; intros [|i] H; simpl in *;
    try discriminate; [congruence | auto].
Qed.


Lemma in_firstn {A : Type} (l : list A) (t : nat) (x : A) :
  In x (firstn t l) -> In x l.
Proof.
  revert t; induction l as [|y l IH]; intros [|t] H; simpl in *; auto.
  - contradiction.
  - destruct H as [H|H]; [left; exact H | right; eapply IH; exact H].
Qed.

Lemma truncate_clicks_total (clicks : list (list Z)) :
  Forall binary clicks ->
  exists last_pos train_labels, truncate_clicks clicks = Ok (last_pos, train_labels).
Proof.
  induction 1 as [|click clicks Hb _ (lp & tl & IH)]; simpl.
  - eauto.
  - destruct (last_observed_binary _ Hb) as (t & Ht & _).
    rewrite Ht, IH. simpl. eauto.
Qed.

Lemma truncate_clicks_nth (clicks : list (list Z)) (last_pos : list nat)
    (train_labels : list (list Z)) (i : nat) (click : list Z) :
  truncate_clicks clicks = Ok (last_pos, train_labels) ->
  nth_error clicks i = Some click ->
  exists t, last_observed click = Ok t /\ nth_error last_pos i = Some t /\
            nth_error train_labels i = Some (firstn t click).
Proof.
  revert last_pos train_labels i.
  induction clicks as [|c clicks IH]; intros lp tl [|i] H Hi; simpl in *;
    try discriminate.
  - injection Hi as ->. inv_ok. simpl. eauto.
  - inv_ok. simpl. eapply IH; eauto.
Qed.

Lemma truncate_clicks_lengths (clicks : list (list Z)) (last_pos : list nat)
    (train_labels : list (list Z)) :
  truncate_clicks clicks = Ok (last_pos, train_labels) ->
  length last_pos = length clicks /\ length train_labels = length clicks.
Proof.
  revert last_pos train_labels.
  induction clicks as [|c clicks IH]; intros lp tl H; simpl in *.
  - inv_ok. auto.
  - inv_ok. simpl. destruct (IH _ _ Hv0). lia.
Qed.

(** ** Re-indexing and the appended entry *)

Section PipelineProperties.

Variables Row Ranker ClickModel Noise RankerParams FitParams : Type.
Variable predict : Ranker -> list Row -> option (list Z).
Variable get_click : ClickModel -> Noise -> list Z -> option (list Z).
Variable LGBMRanker : RankerParams -> option Ranker.
Variable fit : Ranker -> FitParams -> list Row -> list Z -> list nat ->
               option (list Row * list Z * list nat) -> option Ranker.
Variable has_early_stopping_rounds : FitParams -> bool.

Lemma query_range_ok (qset : Queries Row) (qid s e : nat) :
  query_range qset qid = Ok (s, e) <->
  nth_error (query_indptr qset) qid = Some s /\
  nth_error (query_indptr qset) (S qid) = Some e.
Proof.
  unfold query_range. split.
  - intros H. inv_ok. split; apply getitem_ok; assumption.
  - intros [Hs He]. apply getitem_ok in Hs, He. rewrite Hs. simpl.
    rewrite He. reflexivity.
Qed.

Lemma document_count_ok (qset : Queries Row) (qid n : nat) :
  document_count qset qid = Ok n ->
  exists s e, query_range qset qid = Ok (s, e) /\ n = e - s.
Proof.
  unfold document_count. intros H. inv_ok. eauto.
Qed.

Lemma remap_nth (qset : Queries Row) (query_ids : list nat)
    (rankings : list (list nat)) (last_pos : list nat)
    (train_indices : list (list nat)) :
  remap qset query_ids rankings last_pos = Ok train_indices ->
  length train_indices = length query_ids /\
  forall i qid, nth_error query_ids i = Some qid ->
    exists off r t,
      nth_error (query_indptr qset) qid = Some off /\
      nth_error rankings i = Some r /\
      nth_error last_pos i = Some t /\
      nth_error train_indices i = Some (map (Nat.add off) (firstn t r)).
Proof.
  unfold remap. intros H. split.
  - apply mapM_length in H. rewrite H, length_combine, length_seq. lia.
  - intros i qid Hq.
    destruct (mapM_nth_error _ _ _ i _ H (nth_error_enumerate _ 0 _ _ Hq))
      as (y & Hy & Hf).
    simpl in Hf. inv_ok.
    apply getitem_ok in Hv. apply getitem_ok in Hv0. apply getitem_ok in Hv1.
    eauto 8.
Qed.

Lemma take_rows_lengths (fv : list Row) (train_indices : list (list nat))
    (train_features : list (list Row)) :
  mapM (take fv) train_indices = Ok train_features ->
  map (@length Row) train_features = map (@length nat) train_indices.
Proof.
  intros H. apply mapM_Forall2 in H.
  induction H as [|idx rows idxs rowss Hr _ IH]; simpl; [reflexivity|].
  f_equal; [apply take_length in Hr; exact Hr | exact IH].
Qed.

(** What a successful [generate_training_data_from_clicks] has done. *)
Lemma generate_training_data_ok (self self' : OnlineLTR Row)
    (query_ids : list nat) (clicks : list (list Z)) (rankings : list (list nat)) :
  generate_training_data_from_clicks self query_ids clicks rankings
    = (Ok tt, self') ->
  exists last_pos train_labels train_indices,
    truncate_clicks clicks = Ok (last_pos, train_labels) /\
    remap (train_qset self) query_ids rankings last_pos = Ok train_indices /\
    train_indices <> [] /\
    train_qset self' = train_qset self /\
    valid_qset self' = valid_qset self /\
    test_qset self' = test_qset self /\
    observed_training_data self' =
      observed_training_data self ++
      [(train_indices, concat train_labels, map (@length nat) train_indices)] /\
    exists train_features,
      mapM (take (feature_vectors (train_qset self))) train_indices
        = Ok train_features.
Proof.
  unfold generate_training_data_from_clicks. intros H.
  match type of H with
  | match ?c with _ => _ end = _ => destruct c as [otd|e] eqn:E
  end; [|discriminate].
  injection H as <-. inv_ok.
  rename l into last_pos, l0 into train_labels.
  exists last_pos, train_labels, v. simpl.
  repeat split; auto.
  - intros ->. simpl in Hv1. inv_ok. simpl in Hv2. discriminate.
  - unfold np_concatenate in Hv3. destruct train_labels; [discriminate|].
    injection Hv3 as <-. rewrite (take_rows_lengths _ _ _ Hv1). reflexivity.
  - eauto.
Qed.

(** A failing [generate_training_data_from_clicks] leaves [self] as it was. *)
Lemma generate_training_data_raise (self self' : OnlineLTR Row)
    (query_ids : list nat) (clicks : list (list Z)) (rankings : list (list nat))
    (e : exception) :
  generate_training_data_from_clicks self query_ids clicks rankings
    = (Raise e, self') ->
  self' = self.
Proof.
  unfold generate_training_data_from_clicks. intros H.
  match type of H with
  | match ?c with _ => _ end = _ => destruct c
  end; [discriminate|]. congruence.
Qed.

(** C3. On binary click vectors, each aligned with its ranking, the loop over
    [clicks] of [generate_training_data_from_clicks] never raises; for every
    click vector the kept length [t] is the index of the last 1 plus one when
    the vector contains a 1, and the full ranking length when it is all zeros;
    the kept click labels are the first [t] entries of the vector, and they
    are the labels of the entry that the method appends. *)
Theorem truncation_at_last_click (self : OnlineLTR Row) (query_ids : list nat)
    (clicks : list (list Z)) (rankings : list (list nat)) :
  Forall binary clicks ->
  Forall2 (fun click ranking => length click = length ranking) clicks rankings ->
  exists last_pos train_labels,
    truncate_clicks clicks = Ok (last_pos, train_labels) /\
    (forall i click ranking,
       nth_error clicks i = Some click ->
       nth_error rankings i = Some ranking ->
       exists t,
         nth_error last_pos i = Some t /\
         nth_error train_labels i = Some (firstn t click) /\
         (In 1%Z click -> exists j, is_last_one click j /\ t = j + 1) /\
         (Forall (fun c => c = 0%Z) click -> t = length ranking)) /\
    (forall self',
       generate_training_data_from_clicks self query_ids clicks rankings
         = (Ok tt, self') ->
       exists train_indices sizes,
         observed_training_data self' =
           observed_training_data self ++
           [(train_indices, concat train_labels, sizes)]).
Proof.
  intros Hb Hlen.
  destruct (truncate_clicks_total _ Hb) as (last_pos & train_labels & Htr).
  exists last_pos, train_labels. split; [exact Htr|]. split.
  - intros i click ranking Hc Hr.
    destruct (truncate_clicks_nth _ _ _ _ _ Htr Hc) as (t & Ht & Hlp & Hlab).
    assert (Hbc : binary click).
    { rewrite Forall_forall in Hb. apply Hb. eapply nth_error_In; eauto. }
    destruct (last_observed_binary _ Hbc) as (t' & Ht' & _ & Hone & Hall & _).
    rewrite Ht in Ht'. injection Ht' as <-.
    exists t. repeat split; auto.
    intros Hz.
    destruct (Forall2_nth_error _ _ _ _ _ Hlen Hc) as (r' & Hr' & Hl).
    rewrite Hr in Hr'. injection Hr' as <-. rewrite <- Hl. auto.
  - intros self' H.
    destruct (generate_training_data_ok _ _ _ _ _ H)
      as (lp & tl & ti & Htr' & _ & _ & _ & _ & _ & Hobs & _).
    rewrite Htr in Htr'. injection Htr' as <- <-. eauto.
Qed.


(** ** [np.lexsort]: permutation, order and stability *)

Lemma insert_by_perm (key : nat -> Z) (x : nat) (l : list nat) :
  Permutation (insert_by key x l) (x :: l).
Proof.
  induction l as [|y l IH]; simpl.
  - apply Permutation_refl.
  - destruct (key x <=? key y)%Z.
    + apply Permutation_refl.
    + apply perm_trans with (y :: x :: l).
      * apply perm_skip. exact IH.
      * apply perm_swap.
Qed.

Lemma argsort_stable_perm (key : nat -> Z) (l : list nat) :
  Permutation (argsort_stable key l) l.
Proof.
  induction l as [|x l IH]; simpl.
  - apply perm_nil.
  - apply perm_trans with (x :: argsort_stable key l).
    + apply insert_by_perm.
    + apply perm_skip. exact IH.
Qed.

Lemma insert_by_sorted (key : nat -> Z) (R : nat -> nat -> Prop) (x : nat)
    (l : list nat) :
  StronglySorted (refined_by key R) l -> Forall (R x) l ->
  StronglySorted (refined_by key R) (insert_by key x l).
Proof.
  induction 1 as [|y l Hs IH Hy]; intros Hx; simpl.
  - constructor; constructor.
  - inversion Hx as [|? ? Hxy Hxl]; subst.
    destruct (Z.leb_spec (key x) (key y)) as [Hle|Hgt].
    + constructor; [constructor; assumption|].
      constructor.
      * unfold refined_by. destruct (Z.eq_dec (key x) (key y)); [right|left]; auto; lia.
      * rewrite Forall_forall in Hy, Hxl |- *. intros z Hz.
        specialize (Hy z Hz). specialize (Hxl z Hz). unfold refined_by in *.
        destruct (Z.eq_dec (key x) (key z)); [right; auto | left].
        destruct Hy as [Hy|[Hy _]]; lia.
    + constructor; [apply IH; assumption|].
      rewrite Forall_forall in Hy |- *. intros z Hz.
      apply (Permutation_in _ (insert_by_perm key x l)) in Hz.
      destruct Hz as [<-|Hz]; [left; lia | auto].
Qed.

Lemma argsort_stable_sorted (key : nat -> Z) (R : nat -> nat -> Prop)
    (l : list nat) :
  StronglySorted R l -> StronglySorted (refined_by key R) (argsort_stable key l).
Proof.
  induction 1 as [|x l Hs IH Hx]; simpl.
  - constructor.
  - apply insert_by_sorted; [exact IH|].
    rewrite Forall_forall in Hx |- *. intros z Hz. apply Hx.
    apply (Permutation_in _ (argsort_stable_perm key l)). exact Hz.
Qed.

Lemma seq_sorted (s n : nat) : StronglySorted lt (seq s n).
Proof.
  revert s; induction n as [|n IH]; intros s; simpl; constructor; auto.
  rewrite Forall_forall. intros z Hz. apply in_seq in Hz. lia.
Qed.

Lemma StronglySorted_weaken (R R' : nat -> nat -> Prop) (l : list nat) :
  NoDup l ->
  (forall a b, In a l -> In b l -> a <> b -> R a b -> R' a b) ->
  StronglySorted R l -> StronglySorted R' l.
Proof.
  intros Hnd Himp Hs. induction Hs as [|x l Hs IH Hx]; constructor.
  - inversion Hnd; subst. apply IH; auto.
    intros a b Ha Hb. apply Himp; right; assumption.
  - inversion Hnd as [|? ? Hnin Hnd']; subst.
    rewrite Forall_forall in Hx |- *. intros z Hz.
    apply Himp; [left; reflexivity | right; assumption | | auto].
    intros ->. contradiction.
Qed.

Lemma StronglySorted_precedes (R : nat -> nat -> Prop) (r : list nat) (a b : nat) :
  StronglySorted R r -> precedes r a b -> R a b.
Proof.
  intros Hs (l1 & l2 & l3 & ->).
  induction l1 as [|x l1 IH]; simpl in Hs.
  - inversion Hs as [|? ? _ Hf]; subst. rewrite Forall_forall in Hf.
    apply Hf. apply in_or_app. right. left. reflexivity.
  - inversion Hs; subst. auto.
Qed.

Lemma in_both_precedes (r : list nat) (a b : nat) :
  In a r -> In b r -> a <> b -> precedes r a b \/ precedes r b a.
Proof.
  intros Ha Hb Hab. apply in_split in Ha. destruct Ha as (l1 & l2 & ->).
  apply in_app_or in Hb. destruct Hb as [Hb|[Hb|Hb]].
  - right. apply in_split in Hb. destruct Hb as (m1 & m2 & ->).
    exists m1, m2, l2. rewrite <- app_assoc. reflexivity.
  - congruence.
  - left. apply in_split in Hb. destruct Hb as (m1 & m2 & ->).
    exists l1, m1, m2. reflexivity.
Qed.

(** Two rankings of the same documents, both strictly ordered by an
    asymmetric relation, are the same ranking. *)
Lemma sorted_permutation_unique (R : nat -> nat -> Prop) (l1 l2 : list nat) :
  (forall a b, R a b -> R b a -> False) ->
  StronglySorted R l1 -> StronglySorted R l2 -> Permutation l1 l2 -> l1 = l2.
Proof.
  intros Hasym Hs1; revert l2.
  induction Hs1 as [|a l1 Hs1 IH Ha]; intros l2 Hs2 Hp.
  - apply Permutation_nil in Hp. congruence.
  - destruct l2 as [|b l2].
    + apply Permutation_sym, Permutation_nil in Hp. discriminate.
    + inversion Hs2 as [|? ? Hs2' Hb]; subst.
      assert (Hab : a = b).
      { destruct (Nat.eq_dec a b) as [|Hne]; [assumption|exfalso].
        assert (In a (b :: l2)) as [Heq|Hin]
          by (apply (Permutation_in _ Hp); left; reflexivity); [congruence|].
        assert (In b (a :: l1)) as [Heq|Hin']
          by (apply (Permutation_in _ (Permutation_sym Hp)); left; reflexivity);
          [congruence|].
        rewrite Forall_forall in Ha, Hb.
        exact (Hasym a b (Ha b Hin') (Hb a Hin)). }
      subst b. f_equal. apply IH; [assumption|].
      apply Permutation_cons_inv with a. exact Hp.
Qed.

Lemma key_of_opp (scores : list Z) (i : nat) :
  key_of (map Z.opp scores) i = (- key_of scores i)%Z.
Proof.
  unfold key_of. change 0%Z with (Z.opp 0) at 1. apply map_nth.
Qed.

(** What [np.lexsort((tie_breakers, -scores))] returns: a permutation of the
    positions, ordered by score descending, then tie-breaker ascending. *)
Lemma np_lexsort_spec (tie_breakers scores : list Z) (r : list nat) :
  np_lexsort tie_breakers (map Z.opp scores) = Ok r ->
  length tie_breakers = length scores /\
  Permutation r (seq 0 (length scores)) /\
  StronglySorted (lex_before scores tie_breakers) r.
Proof.
  unfold np_lexsort. rewrite length_map.
  destruct (Nat.eqb_spec (length tie_breakers) (length scores)) as [Hl|Hl];
    [|discriminate].
  intros H. injection H as <-. rewrite Hl.
  set (first := argsort_stable (key_of tie_breakers) (seq 0 (length scores))).
  assert (Hp : Permutation (argsort_stable (key_of (map Z.opp scores)) first)
                           (seq 0 (length scores))).
  { apply perm_trans with first; apply argsort_stable_perm. }
  repeat split; auto.
  assert (Hs : StronglySorted
                 (refined_by (key_of (map Z.opp scores))
                             (refined_by (key_of tie_breakers) lt))
                 (argsort_stable (key_of (map Z.opp scores)) first)).
  { apply argsort_stable_sorted. apply argsort_stable_sorted. apply seq_sorted. }
  revert Hs. apply StronglySorted_weaken.
  - apply (Permutation_NoDup (Permutation_sym Hp)). apply seq_NoDup.
  - intros a b _ _ _. unfold refined_by, lex_before.
    rewrite !key_of_opp. intros [H|[H [H'|[H' _]]]]; [left|right|right]; lia.
Qed.

(** ** The rankings of [get_labels_and_rankings] *)

Lemma np_cumsum_from_nth (l : list nat) (acc i s e : nat) :
  nth_error (acc :: np_cumsum_from acc l) i = Some s ->
  nth_error (acc :: np_cumsum_from acc l) (S i) = Some e ->
  nth_error l i = Some (e - s) /\ s <= e.
Proof.
  revert acc i; induction l as [|x l IH]; intros acc i Hs He.
  - simpl in He. destruct i; discriminate.
  - destruct i as [|i]; simpl in *.
    + injection Hs as <-. injection He as <-. split; [f_equal|]; lia.
    + apply (IH (acc + x) i); assumption.
Qed.

(** What a successful [get_labels_and_rankings] has computed. *)
Lemma get_labels_and_rankings_ok (self : OnlineLTR Row) (ranker : option Ranker)
    (num_queries : nat) (d : Draws Noise) (query_ids : list nat)
    (labels : list (list Z)) (rankings : list (list nat)) :
  OnlineLTR_get_labels_and_rankings predict self ranker num_queries d
    = Ok (query_ids, labels, rankings) ->
  sample_query_ids self num_queries "train" d = Ok query_ids /\
  exists n_docs_per_query,
    mapM (document_count (train_qset self)) query_ids = Ok n_docs_per_query /\
    mapM (query_relevance_scores (train_qset self)) query_ids = Ok labels /\
    match ranker with
    | None =>
        rankings = map (fun i => permutation d i (nth i n_docs_per_query 0))
                       (seq 0 (length n_docs_per_query))
    | Some rk =>
        exists sub scores,
          select (train_qset self) query_ids = Ok sub /\
          predict rk (feature_vectors sub) = Some scores /\
          mapM (fun i =>
                  s <- getitem (0 :: np_cumsum n_docs_per_query) i ;;
                  e <- getitem (0 :: np_cumsum n_docs_per_query) (S i) ;;
                  np_lexsort (slice s e (rand d (length scores)))
                             (map Z.opp (slice s e scores)))
               (seq 0 num_queries) = Ok rankings
    end.
Proof.
  unfold OnlineLTR_get_labels_and_rankings. intros H. inv_ok.
  split; [assumption|]. exists v0. repeat split; auto.
  destruct ranker as [rk|].
  - inv_ok. do 2 eexists. repeat split; eassumption.
  - inv_ok. reflexivity.
Qed.

Lemma slice_length_le {A : Type} (s e : nat) (a : list A) :
  length (slice s e a) <= e - s.
Proof. unfold slice. rewrite length_firstn. lia. Qed.

(** Every ranking lists local document indices of its own query. *)
Lemma rankings_local (self : OnlineLTR Row) (ranker : option Ranker)
    (num_queries : nat) (d : Draws Noise) (query_ids : list nat)
    (labels : list (list Z)) (rankings : list (list nat)) :
  numpy_contract d ->
  OnlineLTR_get_labels_and_rankings predict self ranker num_queries d
    = Ok (query_ids, labels, rankings) ->
  forall i qid r,
    nth_error query_ids i = Some qid -> nth_error rankings i = Some r ->
    exists n, document_count (train_qset self) qid = Ok n /\
              Forall (fun x => x < n) r.
Proof.
  intros (_ & Hperm & _) H i qid r Hq Hr.
  destruct (get_labels_and_rankings_ok _ _ _ _ _ _ _ H)
    as (_ & n_docs & Hn & _ & Hrank).
  destruct (mapM_nth_error _ _ _ i _ Hn Hq) as (n & Hni & Hdc).
  exists n. split; [exact Hdc|].
  destruct ranker as [rk|].
  - destruct Hrank as (sub & scores & _ & _ & Hm).
    assert (Hi : i < num_queries).
    { apply mapM_length in Hm. rewrite length_seq in Hm.
      rewrite <- Hm. apply nth_error_Some. congruence. }
    destruct (mapM_nth_error _ _ _ i _ Hm (nth_error_seq_from 0 _ _ Hi))
      as (r' & Hr' & Hf).
    rewrite Hr in Hr'. injection Hr' as <-. simpl in Hf. inv_ok.
    apply getitem_ok in Hv. apply getitem_ok in Hv0.
    destruct (np_cumsum_from_nth _ _ _ _ _ Hv Hv0) as (Hw & _).
    rewrite Hni in Hw. injection Hw as ->.
    apply np_lexsort_spec in Hf. destruct Hf as (_ & Hp & _).
    rewrite Forall_forall. intros x Hx.
    apply (Permutation_in _ Hp) in Hx. apply in_seq in Hx.
    pose proof (slice_length_le v v0 scores). lia.
  - subst rankings.
    assert (Hi : i < length n_docs).
    { apply nth_error_Some. congruence. }
    rewrite (map_nth_error _ _ _ (nth_error_seq_from 0 _ _ Hi)) in Hr.
    injection Hr as <-. simpl.
    rewrite (nth_error_nth_default _ _ _ 0 Hni).
    rewrite Forall_forall. intros x Hx.
    apply (Permutation_in _ (Hperm i n)) in Hx. apply in_seq in Hx. lia.
Qed.

(** What a successful feedback collection has done. *)
Lemma collect_feedback_ok (self self' : OnlineLTR Row) (ranker : option Ranker)
    (num_train_queries : nat) (click_model : ClickModel) (d : Draws Noise) :
  OnlineLTR_collect_feedback predict get_click self ranker num_train_queries
    click_model d = (Ok tt, self') ->
  exists query_ids labels rankings clicks,
    sample_query_ids self num_train_queries "train" d = Ok query_ids /\
    OnlineLTR_get_labels_and_rankings predict self ranker num_train_queries d
      = Ok (query_ids, labels, rankings) /\
    apply_click_model_to_labels_and_scores get_click click_model labels rankings d
      = Ok clicks /\
    generate_training_data_from_clicks self query_ids clicks rankings
      = (Ok tt, self').
Proof.
  unfold OnlineLTR_collect_feedback. intros H.
  destruct (OnlineLTR_get_labels_and_rankings predict self ranker
              num_train_queries d) as [[[qids labels] rankings]|e] eqn:E;
    [|discriminate].
  destruct (apply_click_model_to_labels_and_scores get_click click_model
              labels rankings d) as [clicks|e] eqn:E'; [|discriminate].
  destruct (get_labels_and_rankings_ok _ _ _ _ _ _ _ E) as (Hq & _).
  exists qids, labels, rankings, clicks. repeat split; auto.
Qed.

(** C4. In the entry appended by a feedback collection, the rows kept for
    the [i]-th sampled query [qid] all lie in
    [[query_indptr[qid], query_indptr[qid+1])]. *)
Theorem remapped_rows_within_query_range (self self' : OnlineLTR Row)
    (ranker : option Ranker) (num_train_queries : nat)
    (click_model : ClickModel) (d : Draws Noise) :
  numpy_contract d ->
  OnlineLTR_collect_feedback predict get_click self ranker num_train_queries
    click_model d = (Ok tt, self') ->
  exists otd query_ids,
    observed_training_data self' = observed_training_data self ++ [otd] /\
    sample_query_ids self num_train_queries "train" d = Ok query_ids /\
    length (otd_indices otd) = length query_ids /\
    forall i qid,
      nth_error query_ids i = Some qid ->
      exists inds s e,
        nth_error (otd_indices otd) i = Some inds /\
        nth_error (query_indptr (train_qset self)) qid = Some s /\
        nth_error (query_indptr (train_qset self)) (S qid) = Some e /\
        Forall (fun g => s <= g < e) inds.
Proof.
  intros Hc H.
  destruct (collect_feedback_ok _ _ _ _ _ _ H)
    as (query_ids & labels & rankings & clicks & Hsample & Hg & _ & Hgen).
  destruct (generate_training_data_ok _ _ _ _ _ Hgen)
    as (last_pos & train_labels & train_indices & _ & Hre & _ & _ & _ & _ & Hobs & _).
  destruct (remap_nth _ _ _ _ _ Hre) as (Hlen & Hnth).
  eexists. exists query_ids. split; [exact Hobs|]. split; [exact Hsample|].
  simpl. split; [exact Hlen|].
  intros i qid Hq.
  destruct (Hnth i qid Hq) as (off & r & t & Hoff & Hr & _ & Hi).
  destruct (rankings_local _ _ _ _ _ _ _ Hc Hg i qid r Hq Hr) as (n & Hdc & Hall).
  apply document_count_ok in Hdc. destruct Hdc as (s & e & Hrange & ->).
  apply query_range_ok in Hrange. destruct Hrange as (Hs & He).
  rewrite Hoff in Hs. injection Hs as <-.
  exists (map (Nat.add off) (firstn t r)), off, e. repeat split; auto.
  rewrite Forall_forall in Hall |- *. intros g Hg'.
  apply in_map_iff in Hg'. destruct Hg' as (x & <- & Hx).
  apply in_firstn in Hx. apply Hall in Hx. lia.
Qed.

Lemma np_lexsort_exploitation_order (tie_breakers scores : list Z) (r : list nat) :
  np_lexsort tie_breakers (map Z.opp scores) = Ok r ->
  exploitation_order scores tie_breakers r.
Proof.
  intros H. apply np_lexsort_spec in H. destruct H as (Hl & Hp & Hs).
  assert (Hnd : NoDup r).
  { apply (Permutation_NoDup (Permutation_sym Hp)). apply seq_NoDup. }
  assert (Hlt : forall a, In a r -> a < length scores).
  { intros a Ha. apply (Permutation_in _ Hp) in Ha. apply in_seq in Ha. lia. }
  unfold exploitation_order.
  split; [exact Hp|]. split; [exact Hs|]. split.
  - intros Hsc.
    assert (Hsa : StronglySorted (score_above scores) r).
    { revert Hs. apply StronglySorted_weaken; [exact Hnd|].
      intros a b Ha Hb Hab [Hgt|[Heq _]]; [exact Hgt|exfalso].
      apply Hab. rewrite (NoDup_nth scores 0%Z) in Hsc.
      apply Hsc; auto. }
    split; [exact Hsa|].
    intros r' Hp' Hs'.
    apply sorted_permutation_unique with (R := score_above scores).
    + unfold score_above. intros a b. lia.
    + exact Hs'.
    + exact Hsa.
    + apply perm_trans with (seq 0 (length scores));
        [exact Hp' | apply Permutation_sym; exact Hp].
  - intros a b Ha Hb Heq Htb.
    assert (Hab : a <> b) by (intros ->; lia).
    destruct (in_both_precedes r a b Ha Hb Hab) as [Hpre|Hpre]; [exact Hpre|].
    apply (StronglySorted_precedes _ _ _ _ Hs) in Hpre.
    destruct Hpre as [Hgt|[_ Hle]]; lia.
Qed.

(** C5. With a ranker supplied, every ranking produced by
    [get_labels_and_rankings] is in exploitation order for the scores and the
    tie-breakers of its query: the descending-score order when the scores are
    pairwise distinct, and in general ordered by score descending, then
    tie-breaker ascending, so that tied documents are placed by their
    tie-breakers. *)
Theorem exploitation_rankings_ordered (self : OnlineLTR Row) (rk : Ranker)
    (num_queries : nat) (d : Draws Noise) (query_ids : list nat)
    (labels : list (list Z)) (rankings : list (list nat)) :
  OnlineLTR_get_labels_and_rankings predict self (Some rk) num_queries d
    = Ok (query_ids, labels, rankings) ->
  exists sub scores n_docs_per_query,
    select (train_qset self) query_ids = Ok sub /\
    predict rk (feature_vectors sub) = Some scores /\
    mapM (document_count (train_qset self)) query_ids = Ok n_docs_per_query /\
    length rankings = num_queries /\
    forall i r, nth_error rankings i = Some r ->
      exists s e,
        nth_error (0 :: np_cumsum n_docs_per_query) i = Some s /\
        nth_error (0 :: np_cumsum n_docs_per_query) (S i) = Some e /\
        exploitation_order (slice s e scores)
                           (slice s e (rand d (length scores))) r.
Proof.
  intros H.
  destruct (get_labels_and_rankings_ok _ _ _ _ _ _ _ H)
    as (_ & n_docs & Hn & _ & sub & scores & Hsel & Hpred & Hm).
  exists sub, scores, n_docs.
  assert (Hlen : length rankings = num_queries).
  { apply mapM_length in Hm. rewrite length_seq in Hm. exact Hm. }
  repeat split; auto.
  intros i r Hr.
  assert (Hi : i < num_queries).
  { rewrite <- Hlen. apply nth_error_Some. congruence. }
  destruct (mapM_nth_error _ _ _ i _ Hm (nth_error_seq_from 0 _ _ Hi))
    as (r' & Hr' & Hf).
  rewrite Hr in Hr'. injection Hr' as <-. simpl in Hf.
  apply bind_ok in Hf. destruct Hf as (s & Hs & Hf).
  apply bind_ok in Hf. destruct Hf as (e & He & Hf).
  apply getitem_ok in Hs. apply getitem_ok in He.
  exists s, e. split; [exact Hs|]. split; [exact He|].
  apply np_lexsort_exploitation_order. exact Hf.
Qed.

(** ** Exceptions: which statement raises what *)

Lemma bind_raise {A B : Type} (c : result A) (k : A -> result B) (e : exception) :
  bind c k = Raise e -> c = Raise e \/ exists a, c = Ok a /\ k a = Raise e.
Proof.
  destruct c as [a|e']; simpl; intros H; [right; eauto | left; congruence].
Qed.

Lemma mapM_raise {A B : Type} (f : A -> result B) (xs : list A) (e : exception) :
  mapM f xs = Raise e -> exists x, In x xs /\ f x = Raise e.
Proof.
  induction xs as [|x xs IH]; simpl; intros H; [discriminate|].
  apply bind_raise in H. destruct H as [H|(y & Hy & H)].
  - exists x. auto.
  - apply bind_raise in H. destruct H as [H|(ys & _ & H)]; [|discriminate].
    destruct (IH H) as (x' & Hin & Hx'). exists x'. auto.
Qed.

Lemma getitem_raise {A : Type} (a : list A) (i : nat) (e : exception) :
  getitem a i = Raise e -> e = IndexError.
Proof. unfold getitem. destruct (nth_error a i); congruence. Qed.

Lemma take_raise {A : Type} (a : list A) (idx : list nat) (e : exception) :
  take a idx = Raise e -> e = IndexError.
Proof.
  intros H. apply mapM_raise in H. destruct H as (i & _ & H).
  eapply getitem_raise; eauto.
Qed.

Lemma np_concatenate_raise {A : Type} (arrays : list (list A)) (e : exception) :
  np_concatenate arrays = Raise e -> e = ValueError_concatenate.
Proof. destruct arrays; simpl; congruence. Qed.

Lemma called_raise {A : Type} (o : option A) (e : exception) :
  called o = Raise e -> e = CollaboratorFailure.
Proof. destruct o; simpl; congruence. Qed.

Lemma last_item_raise {A : Type} (a : list A) (e : exception) :
  last_item a = Raise e -> e = IndexError.
Proof.
  induction a as [|x a IH]; simpl; [congruence|].
  destruct a; [discriminate | exact IH].
Qed.

Lemma query_range_raise (qset : Queries Row) (qid : nat) (e : exception) :
  query_range qset qid = Raise e -> e = IndexError.
Proof.
  unfold query_range. intros H.
  apply bind_raise in H. destruct H as [H|(s & _ & H)];
    [eapply getitem_raise; eauto|].
  apply bind_raise in H. destruct H as [H|(s' & _ & H)];
    [eapply getitem_raise; eauto | discriminate].
Qed.

Lemma document_count_raise (qset : Queries Row) (qid : nat) (e : exception) :
  document_count qset qid = Raise e -> e = IndexError.
Proof.
  unfold document_count. intros H.
  apply bind_raise in H. destruct H as [H|([s t] & _ & H)];
    [eapply query_range_raise; eauto | discriminate].
Qed.

Lemma query_relevance_scores_raise (qset : Queries Row) (qid : nat) (e : exception) :
  query_relevance_scores qset qid = Raise e -> e = IndexError.
Proof.
  unfold query_relevance_scores. intros H.
  apply bind_raise in H. destruct H as [H|([s t] & _ & H)];
    [eapply query_range_raise; eauto | discriminate].
Qed.

Lemma select_raise (qset : Queries Row) (query_ids : list nat) (e : exception) :
  select qset query_ids = Raise e -> e = IndexError.
Proof.
  unfold select. intros H.
  apply bind_raise in H. destruct H as [H|(r & _ & H)]; [|discriminate].
  apply mapM_raise in H. destruct H as (q & _ & H).
  eapply query_range_raise; eauto.
Qed.

Lemma sample_query_ids_raise (self : OnlineLTR Row) (num_queries : nat)
    (data : string) (d : Draws Noise) (e : exception) :
  sample_query_ids self num_queries data d = Raise e -> e = ValueError_choice.
Proof.
  unfold sample_query_ids, np_random_choice. intros H.
  match type of H with (if ?c then _ else _) = _ => destruct c end; congruence.
Qed.

Lemma training_set_raise (self : OnlineLTR Row) (e : exception) :
  training_set self = Raise e ->
  (observed_training_data self = [] /\ e = ValueError_update_before_generate) \/
  (observed_training_data self <> [] /\
   (e = IndexError \/ e = ValueError_concatenate)).
Proof.
  unfold training_set. destruct (observed_training_data self) as [|otd otds].
  - intros H. left. split; congruence.
  - intros H. right. split; [discriminate|].
    apply bind_raise in H. destruct H as [H|(rows & _ & H)].
    { apply mapM_raise in H. destruct H as (idx & _ & H).
      left. eapply take_raise; eauto. }
    apply bind_raise in H. destruct H as [H|(X & _ & H)].
    { right. eapply np_concatenate_raise; eauto. }
    apply bind_raise in H. destruct H as [H|(y & _ & H)].
    { right. eapply np_concatenate_raise; eauto. }
    apply bind_raise in H. destruct H as [H|(g & _ & H)]; [|discriminate].
    right. eapply np_concatenate_raise; eauto.
Qed.

Lemma update_ranker_empty_history (self : OnlineLTR Row)
    (ranker_params : RankerParams) (fit_params : FitParams) (d : Draws Noise) :
  observed_training_data self = [] ->
  OnlineLTR_update_ranker LGBMRanker fit has_early_stopping_rounds self
      ranker_params fit_params d
    = Raise ValueError_update_before_generate.
Proof.
  intros Hempty. unfold OnlineLTR_update_ranker, training_set.
  rewrite Hempty. reflexivity.
Qed.

(** C8. With an empty observed history [update_ranker] raises its
    [ValueError]; with a non-empty history it does not raise that error. *)
Theorem update_ranker_requires_feedback (self : OnlineLTR Row)
    (ranker_params : RankerParams) (fit_params : FitParams) (d : Draws Noise) :
  (observed_training_data self = [] ->
   OnlineLTR_update_ranker LGBMRanker fit has_early_stopping_rounds self
       ranker_params fit_params d
     = Raise ValueError_update_before_generate) /\
  (observed_training_data self <> [] ->
   OnlineLTR_update_ranker LGBMRanker fit has_early_stopping_rounds self
       ranker_params fit_params d
     <> Raise ValueError_update_before_generate).
Proof.
  split.
  - apply update_ranker_empty_history.
  - intros Hne H. unfold OnlineLTR_update_ranker in H.
    apply bind_raise in H. destruct H as [H|([[X y] g] & _ & H)].
    { apply training_set_raise in H.
      destruct H as [[He _]|[_ [He|He]]]; [contradiction|discriminate..]. }
    apply bind_raise in H. destruct H as [H|(ranker & _ & H)].
    { apply called_raise in H. discriminate. }
    destruct (has_early_stopping_rounds fit_params).
    + apply bind_raise in H. destruct H as [H|(otd & _ & H)].
      { apply last_item_raise in H. discriminate. }
      apply bind_raise in H. destruct H as [H|(ids & _ & H)].
      { apply sample_query_ids_raise in H. discriminate. }
      apply bind_raise in H. destruct H as [H|(rel & _ & H)].
      { apply mapM_raise in H. destruct H as (q & _ & H).
        apply query_relevance_scores_raise in H. discriminate. }
      apply bind_raise in H. destruct H as [H|(vl & _ & H)].
      { apply np_concatenate_raise in H. discriminate. }
      apply bind_raise in H. destruct H as [H|(sub & _ & H)].
      { apply select_raise in H. discriminate. }
      apply bind_raise in H. destruct H as [H|(sizes & _ & H)].
      { apply mapM_raise in H. destruct H as (q & _ & H).
        apply document_count_raise in H. discriminate. }
      apply called_raise in H. discriminate.
    + apply called_raise in H. discriminate.
Qed.

(** ** The explore-then-exploit schedule *)

(** C10. [ExploreThenExploitOLTR.update_ranker] has advanced the iteration
    counter by the time the delegated retraining fails: with an empty
    history it raises the [ValueError] and leaves the counter incremented,
    and so does every failing call. *)
Theorem failed_retraining_still_advances (self : ExploreThenExploitOLTR Row)
    (ranker_params : RankerParams) (fit_params : FitParams) (d : Draws Noise) :
  (observed_training_data (base self) = [] ->
   ExploreThenExploitOLTR_update_ranker LGBMRanker fit has_early_stopping_rounds self
       ranker_params fit_params d
     = (Raise ValueError_update_before_generate,
        {| base := base self;
           num_explore_iterations := num_explore_iterations self;
           iteration := iteration self + 1 |})) /\
  (forall e self',
     ExploreThenExploitOLTR_update_ranker LGBMRanker fit has_early_stopping_rounds self
         ranker_params fit_params d = (Raise e, self') ->
     iteration self' = (iteration self + 1)%Z /\ self' <> self).
Proof.
  split.
  - intros Hempty. unfold ExploreThenExploitOLTR_update_ranker. simpl.
    rewrite (update_ranker_empty_history (base self) ranker_params
               fit_params d Hempty). reflexivity.
  - intros e self' H. unfold ExploreThenExploitOLTR_update_ranker in H.
    injection H as _ <-. simpl. split; [reflexivity|].
    intros E. apply (f_equal (@iteration Row)) in E. simpl in E. lia.
Qed.


(** The subclass collects feedback as the base class does for the ranker
    that the schedule selects. *)
Lemma ETE_collect_feedback_as_base (self : ExploreThenExploitOLTR Row)
    (ranker : option Ranker) (num_train_queries : nat)
    (click_model : ClickModel) (d : Draws Noise) :
  ExploreThenExploitOLTR_collect_feedback predict get_click self ranker
      num_train_queries click_model d
    = (fst (OnlineLTR_collect_feedback predict get_click (base self)
              (ranker_ self ranker) num_train_queries click_model d),
       with_base self
         (snd (OnlineLTR_collect_feedback predict get_click (base self)
                 (ranker_ self ranker) num_train_queries click_model d))).
Proof.
  unfold ExploreThenExploitOLTR_collect_feedback, OnlineLTR_collect_feedback,
    ExploreThenExploitOLTR_get_labels_and_rankings.
  destruct (OnlineLTR_get_labels_and_rankings predict (base self)
              (ranker_ self ranker) num_train_queries d)
    as [[[qids labels] rankings]|e]; [|destruct self; reflexivity].
  destruct (apply_click_model_to_labels_and_scores get_click click_model
              labels rankings d) as [clicks|e]; [|destruct self; reflexivity].
  destruct (generate_training_data_from_clicks (base self) qids clicks rankings).
  reflexivity.
Qed.


(** ** A failed feedback collection *)

(** C6, as the code has it.  A feedback collection that raises, whether in
    the ranker, in the click model or in the pipeline itself, leaves the
    learner as it was: nothing of that call is appended, also for the
    queries whose clicks had already been drawn. *)
Theorem failed_collection_appends_nothing (self self' : OnlineLTR Row)
    (ranker : option Ranker) (num_train_queries : nat)
    (click_model : ClickModel) (d : Draws Noise) (e : exception) :
  OnlineLTR_collect_feedback predict get_click self ranker num_train_queries
    click_model d = (Raise e, self') ->
  self' = self /\
  observed_training_data self' = observed_training_data self.
Proof.
  unfold OnlineLTR_collect_feedback. intros H.
  assert (Hs : self' = self).
  { destruct (OnlineLTR_get_labels_and_rankings predict self ranker
                num_train_queries d) as [[[qids labels] rankings]|e0];
      [|congruence].
    destruct (apply_click_model_to_labels_and_scores get_click click_model
                labels rankings d) as [clicks|e0]; [|congruence].
    eapply generate_training_data_raise; eauto. }
  subst self'. split; reflexivity.
Qed.

Lemma ETE_failed_collection_appends_nothing (self self' : ExploreThenExploitOLTR Row)
    (ranker : option Ranker) (num_train_queries : nat)
    (click_model : ClickModel) (d : Draws Noise) (e : exception) :
  ExploreThenExploitOLTR_collect_feedback predict get_click self ranker
    num_train_queries click_model d = (Raise e, self') ->
  self' = self.
Proof.
  unfold ExploreThenExploitOLTR_collect_feedback. intros H.
  destruct (ExploreThenExploitOLTR_get_labels_and_rankings predict self ranker
              num_train_queries d) as [[[qids labels] rankings]|e0];
    [|congruence].
  destruct (apply_click_model_to_labels_and_scores get_click click_model
              labels rankings d) as [clicks|e0]; [|congruence].
  destruct (generate_training_data_from_clicks (base self) qids clicks rankings)
    as [r b] eqn:E.
  injection H as -> <-.
  apply generate_training_data_raise in E. subst b.
  destruct self; reflexivity.
Qed.

(** ** The accumulated history *)

Lemma sample_query_ids_length (self : OnlineLTR Row) (num_queries : nat)
    (data : string) (d : Draws Noise) (query_ids : list nat) :
  numpy_contract d ->
  sample_query_ids self num_queries data d = Ok query_ids ->
  length query_ids = num_queries.
Proof.
  intros (Hc & _). unfold sample_query_ids, np_random_choice.
  set (a := n_queries _).
  destruct (Nat.eqb_spec a 0) as [Ha|Ha];
    destruct (Nat.eqb_spec num_queries 0) as [Hn|Hn]; simpl; intros H;
    try discriminate; injection H as <-; apply Hc; lia.
Qed.








(** ** The evaluator *)


Lemma slice_length {A : Type} (s e : nat) (a : list A) :
  length (slice s e a) = Nat.min (e - s) (length a - s).
Proof. unfold slice. rewrite length_firstn, length_skipn. reflexivity. Qed.


Lemma take_total {A : Type} (a : list A) (idx : list nat) :
  Forall (fun i => i < length a) idx -> exists rows, take a idx = Ok rows.
Proof.
  intros H. apply mapM_total. revert H. apply Forall_impl. intros i Hi.
  unfold getitem. destruct (nth_error a i) eqn:E; [eauto|].
  apply nth_error_None in E. lia.
Qed.



(** * Further properties of the pipeline *)

(** ** The truncation loop on arbitrary click values *)

Lemma py_sum_all_zero (click : list Z) :
  Forall (fun c => c = 0%Z) click -> py_sum click = 0%Z.
Proof.
  induction 1 as [|c click -> _ IH]; [reflexivity|].
  rewrite py_sum_cons, IH. reflexivity.
Qed.

Lemma last_observed_total_aux (click : list Z) :
  exists t,
    last_observed click = Ok t /\
    t <= length click /\
    (click <> [] -> 1 <= t) /\
    (py_sum click <> 0%Z ->
     1 <= t /\ nth (t - 1) click 0%Z <> 0%Z /\
     forall k, t <= k -> nth k click 0%Z = 0%Z) /\
    (py_sum click = 0%Z -> t = length click).
Proof.
  unfold last_observed.
  destruct (Z.eqb_spec (py_sum click) 0) as [Hs|Hs].
  - exists (length click). repeat split; auto; try contradiction.
    destruct click; [congruence | simpl; lia].
  - assert (Hnz : np_where click <> []).
    { intros E. apply Hs. apply py_sum_all_zero.
      apply (np_where_from_nil click 0). exact E. }
    destruct (last_item_total _ Hnz) as (j & Hj).
    unfold np_where in *. rewrite Hj. simpl.
    apply last_item_where in Hj. destruct Hj as (p & -> & Hp & Hne & Hz).
    simpl. exists (p + 1).
    replace (p + 1 - 1) with p by lia.
    repeat split; try lia; auto.
    intros k Hk. apply Hz. lia.
Qed.


Lemma truncate_clicks_total_any (clicks : list (list Z)) :
  exists last_pos train_labels,
    truncate_clicks clicks = Ok (last_pos, train_labels).
Proof.
  induction clicks as [|click clicks (lp & tl & IH)]; simpl; [eauto|].
  destruct (last_observed_total_aux click) as (t & Ht & _).
  rewrite Ht, IH. simpl. eauto.
Qed.

Lemma last_observed_le (click : list Z) (t : nat) :
  last_observed click = Ok t -> t <= length click.
Proof.
  intros H. destruct (last_observed_total_aux click) as (t' & Ht' & Hle & _).
  congruence.
Qed.

(** ** Arguments that do not fit together *)

Lemma mapM_raise_index {A B : Type} (f : A -> result B) (xs : list A) :
  (forall x e, In x xs -> f x = Raise e -> e = IndexError) ->
  (exists x e, In x xs /\ f x = Raise e) ->
  mapM f xs = Raise IndexError.
Proof.
  induction xs as [|x xs IH]; intros Hall (x0 & e & Hin & Hx0);
    [contradiction|].
  simpl. destruct (f x) as [y|e'] eqn:E.
  - simpl. rewrite IH; [reflexivity| |].
    + intros z e1 Hz. apply Hall. right. exact Hz.
    + destruct Hin as [<-|Hin]; [congruence|]. eauto.
  - simpl. rewrite (Hall x e' (or_introl eq_refl) E). reflexivity.
Qed.

Lemma remap_step_raise (qset : Queries Row) (rankings : list (list nat))
    (last_pos : list nat) (iq : nat * nat) (e : exception) :
  (off <- getitem (query_indptr qset) (snd iq) ;;
   r <- getitem rankings (fst iq) ;;
   t <- getitem last_pos (fst iq) ;;
   Ok (map (Nat.add off) (firstn t r))) = Raise e ->
  e = IndexError.
Proof.
  intros H.
  apply bind_raise in H. destruct H as [H|(off & _ & H)];
    [eapply getitem_raise; eauto|].
  apply bind_raise in H. destruct H as [H|(r & _ & H)];
    [eapply getitem_raise; eauto|].
  apply bind_raise in H. destruct H as [H|(t & _ & H)];
    [eapply getitem_raise; eauto | discriminate].
Qed.

Lemma remap_raise (qset : Queries Row) (query_ids : list nat)
    (rankings : list (list nat)) (last_pos : list nat) (e : exception) :
  remap qset query_ids rankings last_pos = Raise e -> e = IndexError.
Proof.
  unfold remap. intros H. apply mapM_raise in H. destruct H as (iq & _ & H).
  eapply remap_step_raise; eauto.
Qed.

(** X2. [generate_training_data_from_clicks] does not check its arguments
    against each other, and fails late: with fewer click vectors or fewer
    rankings than query ids it raises [IndexError], and with no query id at
    all it raises the [ValueError] of [np.concatenate]; in both cases
    nothing is appended. *)
Theorem generate_training_data_argument_errors (self : OnlineLTR Row)
    (query_ids : list nat) (clicks : list (list Z)) (rankings : list (list nat)) :
  (length clicks < length query_ids \/ length rankings < length query_ids ->
   generate_training_data_from_clicks self query_ids clicks rankings
     = (Raise IndexError, self)) /\
  (query_ids = [] ->
   generate_training_data_from_clicks self query_ids clicks rankings
     = (Raise ValueError_concatenate, self)).
Proof.
  destruct (truncate_clicks_total_any clicks) as (last_pos & train_labels & Htr).
  pose proof (truncate_clicks_lengths _ _ _ Htr) as (Hlp & _).
  unfold generate_training_data_from_clicks. rewrite Htr. simpl. split.
  - intros Hshort.
    assert (Hre : remap (train_qset self) query_ids rankings last_pos
                  = Raise IndexError).
    { unfold remap. apply mapM_raise_index.
      - intros iq e _ H. eapply remap_step_raise; eauto.
      - assert (Hi : exists i, i < length query_ids /\
                       (length last_pos <= i \/ length rankings <= i)).
        { destruct Hshort as [H|H].
          - exists (length clicks). split; [exact H|]. left. lia.
          - exists (length rankings). split; [exact H|]. right. lia. }
        destruct Hi as (i & Hi & Hout).
        destruct (nth_error query_ids i) as [qid|] eqn:Eq;
          [|apply nth_error_None in Eq; lia].
        pose proof (nth_error_enumerate _ 0 _ _ Eq) as Hin.
        apply nth_error_In in Hin. simpl in Hin.
        exists (i, qid). simpl.
        destruct (getitem (query_indptr (train_qset self)) qid) as [off|e0] eqn:E0;
          [|exists e0; split; [exact Hin|reflexivity]].
        simpl.
        destruct (getitem rankings i) as [r|e1] eqn:E1;
          [|exists e1; split; [exact Hin|reflexivity]].
        simpl.
        destruct (getitem last_pos i) as [t|e2] eqn:E2;
          [|exists e2; split; [exact Hin|reflexivity]].
        exfalso. apply getitem_ok in E1. apply getitem_ok in E2.
        assert (i < length rankings) by (apply nth_error_Some; congruence).
        assert (i < length last_pos) by (apply nth_error_Some; congruence).
        lia. }
    rewrite Hre. reflexivity.
  - intros ->. reflexivity.
Qed.

(** ** What feedback collection can raise *)

Lemma np_lexsort_raise (a b : list Z) (e : exception) :
  np_lexsort a b = Raise e -> e = ValueError_lexsort.
Proof.
  unfold np_lexsort. destruct (length a =? length b); congruence.
Qed.

Lemma truncate_clicks_no_raise (clicks : list (list Z)) (e : exception) :
  truncate_clicks clicks <> Raise e.
Proof.
  destruct (truncate_clicks_total_any clicks) as (lp & tl & H). congruence.
Qed.

Lemma get_labels_and_rankings_raise (self : OnlineLTR Row)
    (ranker : option Ranker) (num_queries : nat) (d : Draws Noise)
    (e : exception) :
  OnlineLTR_get_labels_and_rankings predict self ranker num_queries d = Raise e ->
  e = ValueError_choice \/ e = IndexError \/ e = ValueError_lexsort \/
  e = CollaboratorFailure.
Proof.
  unfold OnlineLTR_get_labels_and_rankings. intros H.
  apply bind_raise in H. destruct H as [H|(qids & _ & H)].
  { left. eapply sample_query_ids_raise; eauto. }
  apply bind_raise in H. destruct H as [H|(n_docs & _ & H)].
  { right; left. apply mapM_raise in H. destruct H as (q & _ & H).
    eapply document_count_raise; eauto. }
  apply bind_raise in H. destruct H as [H|(labels & _ & H)].
  { right; left. apply mapM_raise in H. destruct H as (q & _ & H).
    eapply query_relevance_scores_raise; eauto. }
  apply bind_raise in H. destruct H as [H|(rankings & _ & H)]; [|discriminate].
  destruct ranker as [rk|]; [|discriminate].
  apply bind_raise in H. destruct H as [H|(sub & _ & H)].
  { right; left. eapply select_raise; eauto. }
  apply bind_raise in H. destruct H as [H|(scores & _ & H)].
  { right; right; right. eapply called_raise; eauto. }
  apply mapM_raise in H. destruct H as (i & _ & H).
  apply bind_raise in H. destruct H as [H|(s & _ & H)].
  { right; left. eapply getitem_raise; eauto. }
  apply bind_raise in H. destruct H as [H|(t & _ & H)].
  { right; left. eapply getitem_raise; eauto. }
  right; right; left. eapply np_lexsort_raise; eauto.
Qed.

Lemma apply_click_model_raise (click_model : ClickModel)
    (labels : list (list Z)) (rankings : list (list nat)) (d : Draws Noise)
    (e : exception) :
  apply_click_model_to_labels_and_scores get_click click_model labels rankings d
    = Raise e ->
  e = IndexError \/ e = CollaboratorFailure.
Proof.
  unfold apply_click_model_to_labels_and_scores. intros H.
  apply mapM_raise in H. destruct H as (i & _ & H).
  apply bind_raise in H. destruct H as [H|(l & _ & H)].
  { left. eapply getitem_raise; eauto. }
  apply bind_raise in H. destruct H as [H|(r & _ & H)].
  { left. eapply getitem_raise; eauto. }
  apply bind_raise in H. destruct H as [H|(shown & _ & H)].
  { left. eapply take_raise; eauto. }
  right. eapply called_raise; eauto.
Qed.

Lemma generate_training_data_raise_cases (self self' : OnlineLTR Row)
    (query_ids : list nat) (clicks : list (list Z)) (rankings : list (list nat))
    (e : exception) :
  generate_training_data_from_clicks self query_ids clicks rankings
    = (Raise e, self') ->
  e = IndexError \/ e = ValueError_concatenate.
Proof.
  unfold generate_training_data_from_clicks. intros H.
  match type of H with
  | match ?c with _ => _ end = _ => destruct c as [otd|e0] eqn:E
  end; [discriminate|]. injection H as -> _.
  apply bind_raise in E. destruct E as [E|([lp tl] & _ & E)].
  { exfalso. eapply truncate_clicks_no_raise; eauto. }
  apply bind_raise in E. destruct E as [E|(ti & _ & E)].
  { left. eapply remap_raise; eauto. }
  apply bind_raise in E. destruct E as [E|(tf & _ & E)].
  { left. apply mapM_raise in E. destruct E as (idx & _ & E).
    eapply take_raise; eauto. }
  apply bind_raise in E. destruct E as [E|(X & _ & E)].
  { right. eapply np_concatenate_raise; eauto. }
  apply bind_raise in E. destruct E as [E|(y & _ & E)]; [|discriminate].
  right. eapply np_concatenate_raise; eauto.
Qed.

Lemma collect_feedback_raise_cases (self self' : OnlineLTR Row)
    (ranker : option Ranker) (num_train_queries : nat)
    (click_model : ClickModel) (d : Draws Noise) (e : exception) :
  OnlineLTR_collect_feedback predict get_click self ranker num_train_queries
    click_model d = (Raise e, self') ->
  self' = self /\ e <> ValueError_update_before_generate.
Proof.
  unfold OnlineLTR_collect_feedback. intros H.
  destruct (OnlineLTR_get_labels_and_rankings predict self ranker
              num_train_queries d) as [[[qids labels] rankings]|e0] eqn:E.
  - destruct (apply_click_model_to_labels_and_scores get_click click_model
                labels rankings d) as [clicks|e1] eqn:E1.
    + split; [eapply generate_training_data_raise; eauto|].
      apply generate_training_data_raise_cases in H.
      destruct H as [->| ->]; discriminate.
    + injection H as <- <-. split; [reflexivity|].
      apply apply_click_model_raise in E1. destruct E1 as [->| ->]; discriminate.
  - injection H as <- <-. split; [reflexivity|].
    apply get_labels_and_rankings_raise in E.
    destruct E as [->|[->|[->| ->]]]; discriminate.
Qed.

Lemma update_ranker_raise_cases (self : OnlineLTR Row)
    (ranker_params : RankerParams) (fit_params : FitParams) (d : Draws Noise)
    (e : exception) :
  OnlineLTR_update_ranker LGBMRanker fit has_early_stopping_rounds self
      ranker_params fit_params d = Raise e ->
  (observed_training_data self = [] /\ e = ValueError_update_before_generate) \/
  (observed_training_data self <> [] /\ e <> ValueError_update_before_generate).
Proof.
  unfold OnlineLTR_update_ranker. intros H.
  apply bind_raise in H. destruct H as [H|([[X y] g] & Hts & H)].
  { apply training_set_raise in H.
    destruct H as [[He ->]|[Hne [->| ->]]];
      [left; auto | right; split; [auto|discriminate]..]. }
  right. split.
  { intros Hempty. unfold training_set in Hts. rewrite Hempty in Hts.
    discriminate. }
  apply bind_raise in H. destruct H as [H|(ranker & _ & H)].
  { apply called_raise in H. subst. discriminate. }
  destruct (has_early_stopping_rounds fit_params).
  - apply bind_raise in H. destruct H as [H|(otd & _ & H)].
    { apply last_item_raise in H. subst. discriminate. }
    apply bind_raise in H. destruct H as [H|(ids & _ & H)].
    { apply sample_query_ids_raise in H. subst. discriminate. }
    apply bind_raise in H. destruct H as [H|(rel & _ & H)].
    { apply mapM_raise in H. destruct H as (q & _ & H).
      apply query_relevance_scores_raise in H. subst. discriminate. }
    apply bind_raise in H. destruct H as [H|(vl & _ & H)].
    { apply np_concatenate_raise in H. subst. discriminate. }
    apply bind_raise in H. destruct H as [H|(sub & _ & H)].
    { apply select_raise in H. subst. discriminate. }
    apply bind_raise in H. destruct H as [H|(sizes & _ & H)].
    { apply mapM_raise in H. destruct H as (q & _ & H).
      apply document_count_raise in H. subst. discriminate. }
    apply called_raise in H. subst. discriminate.
  - apply called_raise in H. subst. discriminate.
Qed.

(** X3. [update_learner] never reports "generate_training_data_from_clicks
    should be called before update_ranker": it retrains only after a
    successful collection, which has left an entry in the history; and the
    collection itself cannot raise that error.  This holds for both
    classes. *)
Theorem update_learner_never_lacks_feedback (self : OnlineLTR Row)
    (ete : ExploreThenExploitOLTR Row) (ranker : option Ranker)
    (num_train_queries : nat) (click_model : ClickModel)
    (ranker_params : RankerParams) (fit_params : FitParams)
    (d d' : Draws Noise) :
  fst (OnlineLTR_update_learner predict get_click LGBMRanker fit
         has_early_stopping_rounds self ranker num_train_queries click_model
         ranker_params fit_params d d')
    <> Raise ValueError_update_before_generate /\
  fst (ExploreThenExploitOLTR_update_learner predict get_click LGBMRanker fit
         has_early_stopping_rounds ete ranker num_train_queries click_model
         ranker_params fit_params d d')
    <> Raise ValueError_update_before_generate.
Proof.
  assert (Hbase : forall (s : OnlineLTR Row) rk,
            fst (OnlineLTR_update_learner predict get_click LGBMRanker fit
                   has_early_stopping_rounds s rk num_train_queries
                   click_model ranker_params fit_params d d')
              <> Raise ValueError_update_before_generate /\
            forall s1, OnlineLTR_collect_feedback predict get_click s rk
                         num_train_queries click_model d = (Ok tt, s1) ->
                       OnlineLTR_update_ranker LGBMRanker fit
                         has_early_stopping_rounds s1 ranker_params
                         fit_params d'
                         <> Raise ValueError_update_before_generate).
  { intros s rk.
    assert (Hafter : forall s1,
              OnlineLTR_collect_feedback predict get_click s rk
                num_train_queries click_model d = (Ok tt, s1) ->
              OnlineLTR_update_ranker LGBMRanker fit has_early_stopping_rounds
                s1 ranker_params fit_params d'
                <> Raise ValueError_update_before_generate).
    { intros s1 Hc Hr. apply update_ranker_raise_cases in Hr.
      destruct Hr as [[Hempty _]|[_ Hne]]; [|congruence].
      destruct (collect_feedback_ok _ _ _ _ _ _ Hc)
        as (q & l & r & c & _ & _ & _ & Hgen).
      destruct (generate_training_data_ok _ _ _ _ _ Hgen)
        as (lp & tl & ti & _ & _ & _ & _ & _ & _ & Hobs & _).
      rewrite Hobs in Hempty. destruct (observed_training_data s); discriminate. }
    split; [|exact Hafter].
    unfold OnlineLTR_update_learner.
    destruct (OnlineLTR_collect_feedback predict get_click s rk
                num_train_queries click_model d) as [[[]|e] s1] eqn:E; simpl.
    - apply Hafter. reflexivity.
    - apply collect_feedback_raise_cases in E. destruct E as (_ & Hne).
      congruence. }
  split; [apply Hbase|].
  unfold ExploreThenExploitOLTR_update_learner.
  rewrite ETE_collect_feedback_as_base.
  destruct (OnlineLTR_collect_feedback predict get_click (base ete)
              (ranker_ ete ranker) num_train_queries click_model d)
    as [[[]|e] s1] eqn:E; simpl.
  - destruct (Hbase (base ete) (ranker_ ete ranker)) as (_ & Hafter).
    apply Hafter. exact E.
  - apply collect_feedback_raise_cases in E. destruct E as (_ & Hne). congruence.
Qed.

(** ** Collections of no query *)

Lemma sample_no_query (self : OnlineLTR Row) (data : string) (d : Draws Noise) :
  numpy_contract d -> sample_query_ids self 0 data d = Ok [].
Proof.
  intros (Hc & _). unfold sample_query_ids, np_random_choice.
  set (a := n_queries _). simpl. rewrite andb_false_r.
  destruct (Hc a 0 (or_intror eq_refl)) as (Hlen & _).
  destruct (choice d a 0); [reflexivity | discriminate].
Qed.

(** X4. A feedback collection of zero queries never succeeds: with the
    exploration policy it ends in [np.concatenate]'s [ValueError], with a
    ranker in that error or in a failure of the ranker; the learner is left
    as it was, and so [update_learner] with zero queries raises without
    retraining. *)
Theorem collection_of_no_query_fails (self : OnlineLTR Row)
    (ranker : option Ranker) (click_model : ClickModel)
    (ranker_params : RankerParams) (fit_params : FitParams)
    (d d' : Draws Noise) :
  numpy_contract d ->
  exists e,
    (e = ValueError_concatenate \/
     (ranker <> None /\ e = CollaboratorFailure)) /\
    OnlineLTR_collect_feedback predict get_click self ranker 0 click_model d
      = (Raise e, self) /\
    OnlineLTR_update_learner predict get_click LGBMRanker fit
        has_early_stopping_rounds self ranker 0 click_model ranker_params
        fit_params d d' = (Raise e, self).
Proof.
  intros Hd.
  assert (H : exists e,
            (e = ValueError_concatenate \/
             (ranker <> None /\ e = CollaboratorFailure)) /\
            OnlineLTR_collect_feedback predict get_click self ranker 0
              click_model d = (Raise e, self)).
  { unfold OnlineLTR_collect_feedback, OnlineLTR_get_labels_and_rankings.
    rewrite (sample_no_query self "train" d Hd). simpl.
    destruct ranker as [rk|]; simpl.
    - destruct (predict rk []) as [scores|]; simpl.
      + exists ValueError_concatenate. split; [left|]; reflexivity.
      + exists CollaboratorFailure. split; [right; split; congruence|reflexivity].
    - exists ValueError_concatenate. split; [left|]; reflexivity. }
  destruct H as (e & He & Hc). exists e. split; [exact He|].
  split; [exact Hc|]. unfold OnlineLTR_update_learner. rewrite Hc. reflexivity.
Qed.

(** ** What a failed round leaves behind *)

(** X5. When [update_learner] raises, either the collection failed and the
    learner is as before, or the collection succeeded and the retraining
    failed: then the collected entry stays in the history, it is not rolled
    back. *)
Theorem failed_retraining_keeps_feedback (self self' : OnlineLTR Row)
    (ranker : option Ranker) (num_train_queries : nat)
    (click_model : ClickModel) (ranker_params : RankerParams)
    (fit_params : FitParams) (d d' : Draws Noise) (e : exception) :
  OnlineLTR_update_learner predict get_click LGBMRanker fit
      has_early_stopping_rounds self ranker num_train_queries click_model
      ranker_params fit_params d d' = (Raise e, self') ->
  (OnlineLTR_collect_feedback predict get_click self ranker num_train_queries
     click_model d = (Raise e, self) /\ self' = self) \/
  (OnlineLTR_collect_feedback predict get_click self ranker num_train_queries
     click_model d = (Ok tt, self') /\
   OnlineLTR_update_ranker LGBMRanker fit has_early_stopping_rounds self'
     ranker_params fit_params d' = Raise e /\
   exists otd, observed_training_data self'
                 = observed_training_data self ++ [otd]).
Proof.
  unfold OnlineLTR_update_learner. intros H.
  destruct (OnlineLTR_collect_feedback predict get_click self ranker
              num_train_queries click_model d) as [[[]|e0] s1] eqn:E.
  - injection H as Hr <-. right. split; [reflexivity|]. split; [exact Hr|].
    destruct (collect_feedback_ok _ _ _ _ _ _ E)
      as (q & l & r & c & _ & _ & _ & Hgen).
    destruct (generate_training_data_ok _ _ _ _ _ Hgen)
      as (lp & tl & ti & _ & _ & _ & _ & _ & _ & Hobs & _).
    eauto.
  - injection H as <- <-. left.
    destruct (collect_feedback_raise_cases _ _ _ _ _ _ _ E) as (-> & _).
    split; reflexivity.
Qed.

(** X6. For the explore-then-exploit learner a failed round advances the
    schedule exactly when the failure is in the retraining: a failed
    collection leaves the learner, counter included, as it was; a failed
    retraining leaves the counter incremented and the collected entry in
    the history. *)
Theorem failed_round_and_schedule (ete ete' : ExploreThenExploitOLTR Row)
    (ranker : option Ranker) (num_train_queries : nat)
    (click_model : ClickModel) (ranker_params : RankerParams)
    (fit_params : FitParams) (d d' : Draws Noise) (e : exception) :
  ExploreThenExploitOLTR_update_learner predict get_click LGBMRanker fit
      has_early_stopping_rounds ete ranker num_train_queries click_model
      ranker_params fit_params d d' = (Raise e, ete') ->
  (fst (ExploreThenExploitOLTR_collect_feedback predict get_click ete ranker
          num_train_queries click_model d) = Raise e /\ ete' = ete) \/
  (fst (ExploreThenExploitOLTR_collect_feedback predict get_click ete ranker
          num_train_queries click_model d) = Ok tt /\
   iteration ete' = (iteration ete + 1)%Z /\
   exists otd, observed_training_data (base ete')
                 = observed_training_data (base ete) ++ [otd]).
Proof.
  unfold ExploreThenExploitOLTR_update_learner. intros H.
  destruct (ExploreThenExploitOLTR_collect_feedback predict get_click ete
              ranker num_train_queries click_model d) as [[[]|e0] s1] eqn:E.
  - right. split; [reflexivity|].
    unfold ExploreThenExploitOLTR_update_ranker in H. injection H as _ <-.
    simpl. rewrite ETE_collect_feedback_as_base in E.
    injection E as Hfst Hs1. subst s1. simpl. split; [reflexivity|].
    destruct (OnlineLTR_collect_feedback predict get_click (base ete)
                (ranker_ ete ranker) num_train_queries click_model d)
      as [r0 b] eqn:Eb. simpl in *. subst r0.
    destruct (collect_feedback_ok _ _ _ _ _ _ Eb)
      as (q & l & r & c & _ & _ & _ & Hgen).
    destruct (generate_training_data_ok _ _ _ _ _ Hgen)
      as (lp & tl & ti & _ & _ & _ & _ & _ & _ & Hobs & _).
    eauto.
  - injection H as <- <-. left. split; [reflexivity|].
    eapply ETE_failed_collection_appends_nothing. exact E.
Qed.

(** ** The history only grows *)

(** X7. Feedback collection is append-only: after any sequence of
    collections, failed or not, the three query collections are unchanged
    and the earlier history is a prefix of the new one; every successful
    collection adds exactly one entry and the sequence stops at the first
    failure. *)
Theorem history_is_append_only (calls : list (Collection Ranker ClickModel Noise))
    (self : OnlineLTR Row) :
  let out := collect_many predict get_click self calls in
  train_qset (snd out) = train_qset self /\
  valid_qset (snd out) = valid_qset self /\
  test_qset (snd out) = test_qset self /\
  exists new,
    observed_training_data (snd out) = observed_training_data self ++ new /\
    length new <= length calls /\
    (fst out = Ok tt <-> length new = length calls).
Proof.
  revert self; induction calls as [|c calls IH]; intros self; simpl.
  - repeat split; auto. exists []. rewrite app_nil_r. repeat split; auto.
  - destruct (OnlineLTR_collect_feedback predict get_click self (call_ranker c)
                (call_num_queries c) (call_click_model c) (call_draws c))
      as [[[]|e] s1] eqn:E.
    + destruct (collect_feedback_ok _ _ _ _ _ _ E)
        as (q & l & r & k & _ & _ & _ & Hgen).
      destruct (generate_training_data_ok _ _ _ _ _ Hgen)
        as (lp & tl & ti & _ & _ & _ & Ht & Hv & Hte & Hobs & _).
      destruct (IH s1) as (Ht' & Hv' & Hte' & new & Hnew & Hlen & Hiff).
      repeat split; try congruence.
      exists ((ti, concat tl, map (@length nat) ti) :: new).
      rewrite Hnew, Hobs, <- app_assoc. simpl.
      repeat split; auto; try lia.
      * intros H. apply Hiff in H. lia.
      * intros H. apply Hiff. lia.
    + destruct (collect_feedback_raise_cases _ _ _ _ _ _ _ E) as (-> & _).
      simpl. repeat split; auto. exists []. rewrite app_nil_r.
      simpl. repeat split; auto; try lia; try discriminate.
Qed.

(** ** Labels, rankings and clicks line up *)

Lemma take_ok {A : Type} (a : list A) (idx : list nat) (rows : list A) (dflt : A) :
  take a idx = Ok rows ->
  rows = map (fun j => nth j a dflt) idx /\ Forall (fun j => j < length a) idx.
Proof.
  unfold take. intros H. apply mapM_Forall2 in H.
  induction H as [|j x idx rows Hj _ (IH1 & IH2)]; [split; constructor|].
  apply getitem_ok in Hj. split.
  - simpl. rewrite (nth_error_nth_default _ _ _ dflt Hj), IH1. reflexivity.
  - constructor; [|exact IH2]. apply nth_error_Some. congruence.
Qed.

Lemma clicks_follow_display_order_aux (click_model : ClickModel)
    (labels : list (list Z)) (rankings : list (list nat)) (d : Draws Noise)
    (clicks : list (list Z)) :
  apply_click_model_to_labels_and_scores get_click click_model labels rankings d
    = Ok clicks ->
  length clicks = length rankings /\
  forall i r, nth_error rankings i = Some r ->
    exists l click,
      nth_error labels i = Some l /\
      Forall (fun j => j < length l) r /\
      get_click click_model (noise d i) (map (fun j => nth j l 0%Z) r)
        = Some click /\
      nth_error clicks i = Some click.
Proof.
  unfold apply_click_model_to_labels_and_scores. intros H. split.
  - apply mapM_length in H. rewrite length_seq in H. exact H.
  - intros i r Hr.
    assert (Hi : i < length rankings) by (apply nth_error_Some; congruence).
    destruct (mapM_nth_error _ _ _ i _ H (nth_error_seq_from 0 _ _ Hi))
      as (click & Hc & Hf).
    simpl in Hf.
    apply bind_ok in Hf. destruct Hf as (l & Hl & Hf).
    apply bind_ok in Hf. destruct Hf as (r' & Hr' & Hf).
    apply bind_ok in Hf. destruct Hf as (shown & Hshown & Hf).
    apply getitem_ok in Hl. apply getitem_ok in Hr'.
    rewrite Hr in Hr'. injection Hr' as <-.
    destruct (take_ok _ _ _ 0%Z Hshown) as (-> & Hall).
    apply called_ok in Hf. exists l, click. repeat split; auto.
Qed.

(** X8. The click model is shown the relevance labels in display order: for
    every ranking, position [p] of the label sequence handed to [get_click]
    is the label of the document ranked at [p]; there is one click vector
    per ranking, in the same order. *)
Theorem clicks_follow_display_order (click_model : ClickModel)
    (labels : list (list Z)) (rankings : list (list nat)) (d : Draws Noise)
    (clicks : list (list Z)) :
  apply_click_model_to_labels_and_scores get_click click_model labels rankings d
    = Ok clicks ->
  length clicks = length rankings /\
  forall i r, nth_error rankings i = Some r ->
    exists l click,
      nth_error labels i = Some l /\
      Forall (fun j => j < length l) r /\
      get_click click_model (noise d i) (map (fun j => nth j l 0%Z) r)
        = Some click /\
      nth_error clicks i = Some click.
Proof. apply clicks_follow_display_order_aux. Qed.

Lemma exploration_rankings_aux (self : OnlineLTR Row)
    (num_queries : nat) (d : Draws Noise) (query_ids : list nat)
    (labels : list (list Z)) (rankings : list (list nat)) :
  numpy_contract d ->
  OnlineLTR_get_labels_and_rankings predict self None num_queries d
    = Ok (query_ids, labels, rankings) ->
  length query_ids = num_queries /\
  length labels = num_queries /\
  length rankings = num_queries /\
  forall i qid, nth_error query_ids i = Some qid ->
    qid < n_queries (train_qset self) /\
    exists n l r,
      document_count (train_qset self) qid = Ok n /\
      query_relevance_scores (train_qset self) qid = Ok l /\
      nth_error labels i = Some l /\
      nth_error rankings i = Some r /\
      Permutation r (seq 0 n).
Proof.
  intros Hd H. pose proof Hd as (Hchoice & Hperm & _).
  destruct (get_labels_and_rankings_ok _ _ _ _ _ _ _ H)
    as (Hsample & n_docs & Hn & Hl & Hr).
  pose proof (sample_query_ids_length _ _ _ _ _ Hd Hsample) as Hlen.
  pose proof (mapM_length _ _ _ Hn) as Hlen_n.
  pose proof (mapM_length _ _ _ Hl) as Hlen_l.
  subst rankings. rewrite length_map, length_seq.
  repeat split; try congruence.
  - unfold sample_query_ids, np_random_choice in Hsample. simpl in Hsample.
    set (a := n_queries (train_qset self)) in *.
    destruct (Nat.eqb_spec a 0) as [Ha|Ha];
      destruct (Nat.eqb_spec num_queries 0) as [Hq|Hq]; simpl in Hsample;
      try discriminate; injection Hsample as <-;
      (destruct (Hchoice a num_queries) as (_ & Hall); [lia|]);
      rewrite Forall_forall in Hall; apply Hall; eapply nth_error_In; eauto.
  - destruct (mapM_nth_error _ _ _ i _ Hn H0) as (n & Hni & Hdc).
    destruct (mapM_nth_error _ _ _ i _ Hl H0) as (l & Hli & Hrel).
    exists n, l, (permutation d i n). repeat split; auto.
    assert (Hi : i < length n_docs) by (apply nth_error_Some; congruence).
    rewrite (map_nth_error _ _ _ (nth_error_seq_from 0 _ _ Hi)). simpl.
    rewrite (nth_error_nth_default _ _ _ 0 Hni). reflexivity.
Qed.

(** X9. Without a ranker, and with the numpy generators behaving as
    documented, [get_labels_and_rankings] returns as many query ids, label
    vectors and rankings as queries were asked for; every id is a query of
    the training collection, its label vector is that query's relevance
    vector, and its ranking is a permutation of the query's local document
    indices. *)
Theorem exploration_rankings_are_permutations (self : OnlineLTR Row)
    (num_queries : nat) (d : Draws Noise) (query_ids : list nat)
    (labels : list (list Z)) (rankings : list (list nat)) :
  numpy_contract d ->
  OnlineLTR_get_labels_and_rankings predict self None num_queries d
    = Ok (query_ids, labels, rankings) ->
  length query_ids = num_queries /\
  length labels = num_queries /\
  length rankings = num_queries /\
  forall i qid, nth_error query_ids i = Some qid ->
    qid < n_queries (train_qset self) /\
    exists n l r,
      document_count (train_qset self) qid = Ok n /\
      query_relevance_scores (train_qset self) qid = Ok l /\
      nth_error labels i = Some l /\
      nth_error rankings i = Some r /\
      Permutation r (seq 0 n).
Proof. apply exploration_rankings_aux. Qed.

(** ** Group sizes, rows and labels agree *)

Lemma map_length_pointwise {A B : Type} (l1 : list (list A)) (l2 : list (list B)) :
  length l1 = length l2 ->
  (forall i x y, nth_error l1 i = Some x -> nth_error l2 i = Some y ->
                 length x = length y) ->
  map (@length A) l1 = map (@length B) l2.
Proof.
  revert l2; induction l1 as [|x l1 IH]; intros [|y l2] Hlen Hp;
    simpl in *; try discriminate; [reflexivity|].
  f_equal.
  - apply (Hp 0); reflexivity.
  - apply IH; [lia|]. intros i. apply (Hp (S i)).
Qed.

Lemma get_labels_and_rankings_lengths (self : OnlineLTR Row)
    (ranker : option Ranker) (num_queries : nat) (d : Draws Noise)
    (query_ids : list nat) (labels : list (list Z)) (rankings : list (list nat)) :
  numpy_contract d ->
  OnlineLTR_get_labels_and_rankings predict self ranker num_queries d
    = Ok (query_ids, labels, rankings) ->
  length query_ids = num_queries /\ length labels = num_queries /\
  length rankings = num_queries.
Proof.
  intros Hd H.
  destruct (get_labels_and_rankings_ok _ _ _ _ _ _ _ H)
    as (Hsample & n_docs & Hn & Hl & Hr).
  pose proof (sample_query_ids_length _ _ _ _ _ Hd Hsample) as Hlen.
  pose proof (mapM_length _ _ _ Hn) as Hlen_n.
  pose proof (mapM_length _ _ _ Hl) as Hlen_l.
  repeat split; try congruence.
  destruct ranker as [rk|].
  - destruct Hr as (sub & scores & _ & _ & Hm).
    apply mapM_length in Hm. rewrite length_seq in Hm. exact Hm.
  - subst rankings. rewrite length_map, length_seq. congruence.
Qed.

Lemma appended_entry_consistent_aux (self self' : OnlineLTR Row)
    (ranker : option Ranker) (num_train_queries : nat)
    (click_model : ClickModel) (d : Draws Noise) :
  numpy_contract d ->
  length_preserving get_click ->
  OnlineLTR_collect_feedback predict get_click self ranker num_train_queries
    click_model d = (Ok tt, self') ->
  exists otd,
    observed_training_data self' = observed_training_data self ++ [otd] /\
    entry_consistent otd /\
    length (otd_sizes otd) = num_train_queries.
Proof.
  intros Hd Hlp H.
  destruct (collect_feedback_ok _ _ _ _ _ _ H)
    as (query_ids & labels & rankings & clicks & _ & Hg & Hclick & Hgen).
  destruct (get_labels_and_rankings_lengths _ _ _ _ _ _ _ Hd Hg)
    as (Hlq & _ & Hlr).
  destruct (clicks_follow_display_order_aux click_model labels rankings d
              clicks Hclick) as (Hlc & Hci).
  destruct (generate_training_data_ok _ _ _ _ _ Hgen)
    as (last_pos & train_labels & train_indices & Htr & Hre & _ & _ & _ & _
        & Hobs & _).
  destruct (remap_nth _ _ _ _ _ Hre) as (Hlti & Hnth).
  destruct (truncate_clicks_lengths _ _ _ Htr) as (_ & Hltl).
  eexists. split; [exact Hobs|].
  unfold entry_consistent, otd_sizes, otd_indices, otd_labels. simpl.
  split; [split; [reflexivity|]|].
  - rewrite length_concat. f_equal.
    apply map_length_pointwise; [congruence|].
    intros i inds labs Hi Hlabs.
    assert (Hiq : i < length query_ids).
    { rewrite <- Hlti. apply nth_error_Some. congruence. }
    destruct (nth_error query_ids i) as [qid|] eqn:Eq;
      [|apply nth_error_None in Eq; lia].
    destruct (Hnth i qid Eq) as (off & r & t & _ & Hr & Ht & Hi').
    rewrite Hi in Hi'. injection Hi' as ->.
    destruct (Hci i r Hr) as (l & click & _ & _ & Hget & Hc).
    destruct (truncate_clicks_nth _ _ _ _ _ Htr Hc) as (t' & Hlo & Ht' & Hlab).
    rewrite Ht in Ht'. injection Ht' as <-.
    rewrite Hlabs in Hlab. injection Hlab as ->.
    apply last_observed_le in Hlo.
    apply Hlp in Hget. rewrite length_map in Hget.
    rewrite length_map, !length_firstn. lia.
  - rewrite length_map. congruence.
Qed.

(** X10. With a click model that answers with one click per label, the
    entry appended by a feedback collection is consistent: each group size
    is the number of rows kept for its query, and the group sizes add up to
    the number of stored labels, as a grouped fit requires. *)
Theorem appended_entry_is_consistent (self self' : OnlineLTR Row)
    (ranker : option Ranker) (num_train_queries : nat)
    (click_model : ClickModel) (d : Draws Noise) :
  numpy_contract d ->
  length_preserving get_click ->
  OnlineLTR_collect_feedback predict get_click self ranker num_train_queries
    click_model d = (Ok tt, self') ->
  exists otd,
    observed_training_data self' = observed_training_data self ++ [otd] /\
    entry_consistent otd /\
    length (otd_sizes otd) = num_train_queries.
Proof. apply appended_entry_consistent_aux. Qed.

Lemma list_sum_concat (l : list (list nat)) :
  list_sum (concat l) = list_sum (map list_sum l).
Proof.
  induction l as [|x l IH]; simpl; [reflexivity|].
  rewrite list_sum_app, IH. reflexivity.
Qed.

Lemma consistent_history_sums (history : list Observed) :
  Forall entry_consistent history ->
  list_sum (map (@length nat) (flat_map otd_indices history))
    = list_sum (concat (map otd_sizes history)) /\
  length (concat (map otd_labels history))
    = list_sum (concat (map otd_sizes history)).
Proof.
  induction 1 as [|otd history (Hsz & Hlab) _ (IH1 & IH2)]; simpl;
    [split; reflexivity|].
  rewrite map_app, !list_sum_app, length_app, IH1, IH2, Hsz, Hlab.
  split; reflexivity.
Qed.

Lemma training_set_lengths (self : OnlineLTR Row) (X : list Row) (y : list Z)
    (g : list nat) :
  Forall entry_consistent (observed_training_data self) ->
  training_set self = Ok (X, y, g) ->
  length X = list_sum g /\ length y = list_sum g.
Proof.
  intros Hc H. unfold training_set in H.
  destruct (observed_training_data self) as [|otd history] eqn:E;
    [discriminate|]. rewrite <- E in *.
  apply bind_ok in H. destruct H as (rows & Hrows & H).
  apply bind_ok in H. destruct H as (X0 & HX & H).
  apply bind_ok in H. destruct H as (y0 & Hy & H).
  apply bind_ok in H. destruct H as (g0 & Hg & H).
  injection H as <- <- <-.
  destruct (consistent_history_sums _ Hc) as (H1 & H2).
  assert (HX' : X0 = concat rows)
    by (destruct rows; simpl in *; [discriminate|congruence]).
  assert (Hy' : y0 = concat (map otd_labels (observed_training_data self))).
  { rewrite E in *. simpl in *. congruence. }
  assert (Hg' : g0 = concat (map otd_sizes (observed_training_data self))).
  { rewrite E in *. simpl in *. congruence. }
  subst. split; [|exact H2].
  rewrite length_concat, (take_rows_lengths _ _ _ Hrows). exact H1.
Qed.

(** X11. If the click model answers with one click per label, every
    history built by feedback collections is consistent, and the training
    set that [update_ranker] assembles from it has as many feature rows as
    labels, both equal to the sum of the group sizes. *)
Theorem training_set_is_consistent
    (calls : list (Collection Ranker ClickModel Noise))
    (self self' : OnlineLTR Row) :
  Forall entry_consistent (observed_training_data self) ->
  Forall (fun c => numpy_contract (call_draws c)) calls ->
  length_preserving get_click ->
  collect_many predict get_click self calls = (Ok tt, self') ->
  Forall entry_consistent (observed_training_data self') /\
  forall X y g, training_set self' = Ok (X, y, g) ->
    length X = list_sum g /\ length y = list_sum g.
Proof.
  intros Hc Hd Hlp H.
  assert (Hall : Forall entry_consistent (observed_training_data self')).
  { revert self Hc H. induction Hd as [|c calls Hdc _ IH]; intros self Hc H;
      simpl in H.
    - injection H as <-. exact Hc.
    - destruct (OnlineLTR_collect_feedback predict get_click self
                  (call_ranker c) (call_num_queries c) (call_click_model c)
                  (call_draws c)) as [[[]|e] s1] eqn:E; [|discriminate].
      destruct (appended_entry_consistent_aux _ _ _ _ _ _ Hdc Hlp E)
        as (otd & Hobs & Hotd & _).
      apply (IH s1); [|exact H].
      rewrite Hobs. apply Forall_app. split; [exact Hc|].
      constructor; [exact Hotd | constructor]. }
  split; [exact Hall|].
  intros X y g. apply training_set_lengths. exact Hall.
Qed.

(** ** Successive training rounds of the explore-then-exploit learner *)



(** ** Evaluation on no query *)

(** X13. Evaluating on a collection without queries (an empty [query_ids]
    list, for instance) does not raise: the mean of no value is taken and
    the result is NaN. *)
Theorem evaluate_on_no_query_is_nan (self : OnlineLTR Row) (ranker : Ranker)
    (eval_params : EvalParams) (query_ids : option (list nat)) (data : string)
    (d : Draws Noise) (eval_qset : Queries Row) (scores : list Z) :
  eval_collection self query_ids data = Ok eval_qset ->
  n_queries eval_qset = 0 ->
  predict ranker (feature_vectors eval_qset) = Some scores ->
  evaluate_ranker predict self ranker eval_params query_ids data d
    = Ok PrimFloat.nan /\
  eval_collection self (Some []) data
    = Ok {| feature_vectors := []; relevance_scores := [];
            query_indptr := [0] |}.
Proof.
  intros Hsel Hn Hpred. split.
  - unfold evaluate_ranker. rewrite Hsel. simpl. rewrite Hpred. simpl.
    rewrite Hn. reflexivity.
  - unfold eval_collection. reflexivity.
Qed.

(** ** The [data] keyword *)

(** X14. A [data] keyword other than ['train'], ['valid'] and ['test'] is
    not rejected, and the two methods that take one resolve it differently:
    [sample_query_ids] samples from the training collection, while
    [evaluate_ranker] evaluates on the test collection. *)
Theorem unknown_data_keyword (self : OnlineLTR Row) (num_queries : nat)
    (data : string) (d : Draws Noise) :
  data <> "train"%string -> data <> "valid"%string -> data <> "test"%string ->
  sample_query_ids self num_queries data d
    = sample_query_ids self num_queries "train" d /\
  eval_collection self None data = eval_collection self None "test" /\
  eval_collection self None data = Ok (test_qset self).
Proof.
  intros Htrain Hvalid Htest.
  apply String.eqb_neq in Htrain, Hvalid, Htest.
  unfold sample_query_ids, eval_collection.
  rewrite Htrain, Hvalid, Htest. simpl. repeat split.
Qed.

(** ** Sub-collections and row counts *)

Lemma slice_length_cover {A : Type} (s e : nat) (a : list A) :
  e <= length a -> length (slice s e a) = e - s.
Proof. intros H. rewrite slice_length. lia. Qed.

Lemma query_range_widths (qset : Queries Row) (query_ids : list nat)
    (ranges : list (nat * nat)) :
  mapM (query_range qset) query_ids = Ok ranges ->
  mapM (document_count qset) query_ids
    = Ok (map (fun r => snd r - fst r) ranges) /\
  mapM (query_relevance_scores qset) query_ids
    = Ok (map (fun r => slice (fst r) (snd r) (relevance_scores qset)) ranges) /\
  Forall (fun r => In (snd r) (query_indptr qset)) ranges.
Proof.
  revert ranges; induction query_ids as [|qid ids IH]; intros ranges H;
    simpl in H.
  - injection H as <-. repeat split; constructor.
  - apply bind_ok in H. destruct H as ([s e] & Hr & H).
    apply bind_ok in H. destruct H as (rs & Hrs & H). injection H as <-.
    destruct (IH _ Hrs) as (H1 & H2 & H3). simpl.
    unfold document_count at 1, query_relevance_scores at 1.
    rewrite Hr. simpl. rewrite H1, H2. simpl. repeat split.
    constructor; [|exact H3]. simpl.
    apply query_range_ok in Hr. destruct Hr as (_ & He).
    eapply nth_error_In; eauto.
Qed.

Lemma length_concat_slices {A : Type} (a : list A) (ranges : list (nat * nat)) :
  Forall (fun r => snd r <= length a) ranges ->
  length (concat (map (fun r => slice (fst r) (snd r) a) ranges))
    = list_sum (map (fun r => snd r - fst r) ranges).
Proof.
  induction 1 as [|r ranges Hr _ IH]; simpl; [reflexivity|].
  rewrite length_app, IH, (slice_length_cover _ _ _ Hr). reflexivity.
Qed.

(** Selecting queries from a collection whose offsets stay within its
    feature matrix and its relevance vector gives as many rows and labels
    as the selected queries have documents. *)
Lemma select_row_counts (qset sub : Queries Row) (query_ids : list nat)
    (n_docs : list nat) :
  features_cover qset -> rows_cover qset ->
  select qset query_ids = Ok sub ->
  mapM (document_count qset) query_ids = Ok n_docs ->
  length (feature_vectors sub) = list_sum n_docs /\
  length (relevance_scores sub) = list_sum n_docs /\
  query_indptr sub = 0 :: np_cumsum n_docs.
Proof.
  intros Hf Hr Hsel Hn. unfold select in Hsel.
  apply bind_ok in Hsel. destruct Hsel as (ranges & Hranges & Hsel).
  injection Hsel as <-. simpl.
  destruct (query_range_widths _ _ _ Hranges) as (Hw & _ & Hin).
  rewrite Hw in Hn. injection Hn as <-.
  unfold features_cover, rows_cover in *.
  rewrite Forall_forall in Hf, Hr.
  repeat split; apply length_concat_slices;
    (eapply Forall_impl; [|exact Hin]); intros r Hr'; auto.
Qed.

Lemma np_cumsum_from_bound (l : list nat) (acc i e : nat) :
  nth_error (acc :: np_cumsum_from acc l) i = Some e -> e <= acc + list_sum l.
Proof.
  revert acc i; induction l as [|x l IH]; intros acc [|i] H; simpl in *.
  - injection H as <-. lia.
  - destruct i; discriminate.
  - injection H as <-. lia.
  - apply IH in H. lia.
Qed.

(** X15. With a ranker that returns one score per feature row, on a training
    collection whose row offsets stay within its feature matrix and relevance
    vector, and with the numpy generators behaving as documented, every
    exploitation ranking is a permutation of all the local
    document indices of its query: no document is left out or repeated, and
    the ranking is as long as the query's label vector. *)
Theorem exploitation_rankings_are_permutations (self : OnlineLTR Row)
    (rk : Ranker) (num_queries : nat) (d : Draws Noise) (query_ids : list nat)
    (labels : list (list Z)) (rankings : list (list nat)) :
  numpy_contract d ->
  one_score_per_row predict ->
  features_cover (train_qset self) -> rows_cover (train_qset self) ->
  OnlineLTR_get_labels_and_rankings predict self (Some rk) num_queries d
    = Ok (query_ids, labels, rankings) ->
  length query_ids = num_queries /\
  forall i qid, nth_error query_ids i = Some qid ->
    exists n l r,
      document_count (train_qset self) qid = Ok n /\
      nth_error labels i = Some l /\ length l = n /\
      nth_error rankings i = Some r /\
      Permutation r (seq 0 n).
Proof.
  intros Hd Hone Hf Hr H.
  destruct (get_labels_and_rankings_lengths _ _ _ _ _ _ _ Hd H) as (Hnq & _ & _).
  destruct (get_labels_and_rankings_ok _ _ _ _ _ _ _ H)
    as (_ & n_docs & Hn & Hl & sub & scores & Hsel & Hpred & Hm).
  destruct (select_row_counts _ _ _ _ Hf Hr Hsel Hn) as (Hlf & _ & _).
  apply Hone in Hpred. rewrite Hlf in Hpred.
  split; [exact Hnq|].
  intros i qid Hi.
  destruct (mapM_nth_error _ _ _ i _ Hn Hi) as (n & Hni & Hdc).
  destruct (mapM_nth_error _ _ _ i _ Hl Hi) as (l & Hli & Hrel).
  assert (Hin : i < num_queries).
  { rewrite <- Hnq. apply nth_error_Some. congruence. }
  destruct (mapM_nth_error _ _ _ i _ Hm (nth_error_seq_from 0 _ _ Hin))
    as (r & Hri & Hfi). simpl in Hfi.
  apply bind_ok in Hfi. destruct Hfi as (s & Hs & Hfi).
  apply bind_ok in Hfi. destruct Hfi as (e & He & Hfi).
  apply getitem_ok in Hs. apply getitem_ok in He.
  destruct (np_cumsum_from_nth _ _ _ _ _ Hs He) as (Hw & Hse).
  rewrite Hni in Hw. injection Hw as ->.
  pose proof (np_cumsum_from_bound _ _ _ _ He) as Hbound. simpl in Hbound.
  apply np_lexsort_spec in Hfi. destruct Hfi as (_ & Hp & _).
  rewrite slice_length_cover in Hp by lia.
  exists (e - s), l, r. repeat split; auto.
  apply document_count_ok in Hdc. destruct Hdc as (s' & e' & Hrange & Hw).
  unfold query_relevance_scores in Hrel. rewrite Hrange in Hrel. simpl in Hrel.
  injection Hrel as <-. rewrite Hw. apply slice_length_cover.
  unfold rows_cover in Hr. rewrite Forall_forall in Hr. apply Hr.
  apply query_range_ok in Hrange. destruct Hrange as (_ & He').
  eapply nth_error_In; eauto.
Qed.

(** ** When the pipeline succeeds *)

Lemma generate_training_data_succeeds_aux (self : OnlineLTR Row)
    (query_ids : list nat) (clicks : list (list Z)) (rankings : list (list nat)) :
  query_ids <> [] ->
  rankings_fit (train_qset self) query_ids rankings ->
  length clicks = length query_ids ->
  features_cover (train_qset self) ->
  exists otd,
    generate_training_data_from_clicks self query_ids clicks rankings
      = (Ok tt,
         {| train_qset := train_qset self; valid_qset := valid_qset self;
            test_qset := test_qset self;
            observed_training_data := observed_training_data self ++ [otd] |}).
Proof.
  intros Hne (Hlr & Hfit) Hlc Hcover.
  destruct (truncate_clicks_total_any clicks) as (last_pos & train_labels & Htr).
  destruct (truncate_clicks_lengths _ _ _ Htr) as (Hllp & Hltl).
  assert (Hstep : forall i qid, nth_error query_ids i = Some qid ->
            exists off r t,
              getitem (query_indptr (train_qset self)) qid = Ok off /\
              getitem rankings i = Ok r /\ getitem last_pos i = Ok t /\
              Forall (fun g => g < length (feature_vectors (train_qset self)))
                     (map (Nat.add off) (firstn t r))).
  { intros i qid Hq.
    assert (Hi : i < length query_ids) by (apply nth_error_Some; congruence).
    destruct (nth_error rankings i) as [r|] eqn:Er;
      [|apply nth_error_None in Er; lia].
    destruct (nth_error last_pos i) as [t|] eqn:Et;
      [|apply nth_error_None in Et; lia].
    destruct (Hfit i qid r Hq Er) as (n & Hdc & Hall).
    apply document_count_ok in Hdc. destruct Hdc as (s & e & Hrange & ->).
    apply query_range_ok in Hrange. destruct Hrange as (Hs & He).
    exists s, r, t. repeat split; try (apply getitem_ok; assumption).
    unfold features_cover in Hcover. rewrite Forall_forall in Hcover.
    pose proof (Hcover e (nth_error_In _ _ He)) as Hle.
    rewrite Forall_forall in Hall |- *. intros g Hg.
    apply in_map_iff in Hg. destruct Hg as (x & <- & Hx).
    apply in_firstn in Hx. apply Hall in Hx. lia. }
  assert (Hre : exists train_indices,
            remap (train_qset self) query_ids rankings last_pos
              = Ok train_indices /\
            Forall (Forall (fun g =>
                      g < length (feature_vectors (train_qset self))))
                   train_indices).
  { unfold remap.
    assert (Hgen : forall (l : list nat) (k : nat),
              (forall i qid, nth_error l i = Some qid ->
                 nth_error query_ids (k + i) = Some qid) ->
              exists ti,
                mapM (fun iq =>
                        off <- getitem (query_indptr (train_qset self)) (snd iq) ;;
                        r <- getitem rankings (fst iq) ;;
                        t <- getitem last_pos (fst iq) ;;
                        Ok (map (Nat.add off) (firstn t r)))
                     (combine (seq k (length l)) l) = Ok ti /\
                Forall (Forall (fun g =>
                          g < length (feature_vectors (train_qset self)))) ti).
    { induction l as [|qid l IHl]; intros k Hk; simpl.
      - exists []. split; [reflexivity | constructor].
      - destruct (Hstep k qid) as (off & r & t & Ho & Hr & Ht & Hall).
        { rewrite <- (Nat.add_0_r k). apply Hk. reflexivity. }
        destruct (IHl (S k)) as (ti & Hti & Hall').
        { intros i q Hq. replace (S k + i) with (k + S i) by lia.
          apply Hk. exact Hq. }
        rewrite Ho. simpl. rewrite Hr. simpl. rewrite Ht. simpl.
        rewrite Hti. simpl. eexists. split; [reflexivity|].
        constructor; assumption. }
    apply (Hgen query_ids 0). intros i qid Hq. exact Hq. }
  destruct Hre as (train_indices & Hre & Hall).
  assert (Htf : exists train_features,
            mapM (take (feature_vectors (train_qset self))) train_indices
              = Ok train_features).
  { apply mapM_total. revert Hall. apply Forall_impl. intros idx Hidx.
    apply take_total. exact Hidx. }
  destruct Htf as (train_features & Htf).
  destruct (remap_nth _ _ _ _ _ Hre) as (Hlti & _).
  pose proof (mapM_length _ _ _ Htf) as Hltf.
  unfold generate_training_data_from_clicks.
  rewrite Htr. simpl. rewrite Hre. simpl. rewrite Htf. simpl.
  destruct train_features as [|tf0 tfs];
    [simpl in Hltf; destruct query_ids; [congruence | simpl in *; lia]|].
  simpl.
  destruct train_labels as [|tl0 tls];
    [simpl in Hltl; destruct query_ids; [congruence | simpl in *; lia]|].
  simpl. eexists. reflexivity.
Qed.

(** X16. [generate_training_data_from_clicks] succeeds, and appends exactly
    one entry without touching the rest of the learner, whenever there is
    at least one query id, one click vector and one ranking per id, every
    ranking lists local document indices of its query, and the row offsets
    of the training collection stay within its feature matrix. *)
Theorem generate_training_data_succeeds (self : OnlineLTR Row)
    (query_ids : list nat) (clicks : list (list Z)) (rankings : list (list nat)) :
  query_ids <> [] ->
  rankings_fit (train_qset self) query_ids rankings ->
  length clicks = length query_ids ->
  features_cover (train_qset self) ->
  exists otd,
    generate_training_data_from_clicks self query_ids clicks rankings
      = (Ok tt,
         {| train_qset := train_qset self; valid_qset := valid_qset self;
            test_qset := test_qset self;
            observed_training_data := observed_training_data self ++ [otd] |}).
Proof. apply generate_training_data_succeeds_aux. Qed.

Lemma query_range_in_range (qset : Queries Row) (qid : nat) :
  qid < n_queries qset -> exists s e, query_range qset qid = Ok (s, e).
Proof.
  unfold n_queries. intros H.
  destruct (nth_error (query_indptr qset) qid) as [s|] eqn:Es;
    [|apply nth_error_None in Es; lia].
  destruct (nth_error (query_indptr qset) (S qid)) as [e|] eqn:Ee;
    [|apply nth_error_None in Ee; lia].
  exists s, e. apply query_range_ok. auto.
Qed.

(** X17. An exploratory feedback collection cannot fail on a sound
    collection: with the numpy generators behaving as documented, a training
    collection that has a query and whose row offsets stay within its
    feature matrix and relevance vector, at least one query asked for, and
    a click model that answers, the collection succeeds and appends one
    entry. *)
Theorem exploratory_collection_succeeds (self : OnlineLTR Row)
    (num_train_queries : nat) (click_model : ClickModel) (d : Draws Noise) :
  numpy_contract d ->
  0 < n_queries (train_qset self) ->
  1 <= num_train_queries ->
  features_cover (train_qset self) -> rows_cover (train_qset self) ->
  (forall i labels, get_click click_model (noise d i) labels <> None) ->
  exists otd,
    OnlineLTR_collect_feedback predict get_click self None num_train_queries
        click_model d
      = (Ok tt,
         {| train_qset := train_qset self; valid_qset := valid_qset self;
            test_qset := test_qset self;
            observed_training_data := observed_training_data self ++ [otd] |}).
Proof.
  intros Hd Hq Hn Hf Hr Hclick. pose proof Hd as (Hchoice & _ & _).
  set (a := n_queries (train_qset self)) in *.
  set (qids := choice d a num_train_queries).
  assert (Hsample : sample_query_ids self num_train_queries "train" d = Ok qids).
  { unfold sample_query_ids, np_random_choice. simpl. fold a.
    destruct (Nat.eqb_spec a 0); [lia|]. reflexivity. }
  destruct (Hchoice a num_train_queries (or_introl Hq)) as (Hlen & Hall).
  fold qids in Hlen, Hall.
  assert (Hdocs : exists n_docs,
            mapM (document_count (train_qset self)) qids = Ok n_docs).
  { apply mapM_total. revert Hall. apply Forall_impl. intros qid Hqid.
    destruct (query_range_in_range _ _ Hqid) as (s & e & Hse).
    unfold document_count. rewrite Hse. simpl. eauto. }
  assert (Hlabels : exists labels,
            mapM (query_relevance_scores (train_qset self)) qids = Ok labels).
  { apply mapM_total. revert Hall. apply Forall_impl. intros qid Hqid.
    destruct (query_range_in_range _ _ Hqid) as (s & e & Hse).
    unfold query_relevance_scores. rewrite Hse. simpl. eauto. }
  destruct Hdocs as (n_docs & Hdocs). destruct Hlabels as (labels & Hlabels).
  set (rankings := map (fun i => permutation d i (nth i n_docs 0))
                       (seq 0 (length n_docs))).
  assert (Hglr : OnlineLTR_get_labels_and_rankings predict self None
                   num_train_queries d = Ok (qids, labels, rankings)).
  { unfold OnlineLTR_get_labels_and_rankings. rewrite Hsample. simpl.
    rewrite Hdocs. simpl. rewrite Hlabels. reflexivity. }
  destruct (exploration_rankings_aux _ _ _ _ _ _ Hd Hglr)
    as (Hlq & Hll & Hlr & Hper).
  assert (Hcl : exists clicks,
            apply_click_model_to_labels_and_scores get_click click_model
              labels rankings d = Ok clicks).
  { unfold apply_click_model_to_labels_and_scores. apply mapM_total.
    rewrite Forall_forall. intros i Hi. apply in_seq in Hi.
    destruct (nth_error qids i) as [qid|] eqn:Eq;
      [|apply nth_error_None in Eq; lia].
    destruct (Hper i qid Eq) as (_ & n & l & r & Hdc & Hrel & Hl & Hri & Hp).
    apply getitem_ok in Hl. apply getitem_ok in Hri.
    rewrite Hl. simpl. rewrite Hri. simpl.
    destruct (take_total l r) as (shown & Hshown).
    { rewrite Forall_forall. intros x Hx.
      apply (Permutation_in _ Hp) in Hx. apply in_seq in Hx.
      apply document_count_ok in Hdc. destruct Hdc as (s & e & Hrange & ->).
      unfold query_relevance_scores in Hrel. rewrite Hrange in Hrel.
      simpl in Hrel. injection Hrel as <-.
      rewrite slice_length_cover; [lia|].
      unfold rows_cover in Hr. rewrite Forall_forall in Hr. apply Hr.
      apply query_range_ok in Hrange. destruct Hrange as (_ & He).
      eapply nth_error_In; eauto. }
    rewrite Hshown. simpl.
    destruct (get_click click_model (noise d i) shown) as [c|] eqn:Ec;
      [simpl; eauto | exfalso; eapply Hclick; eauto]. }
  destruct Hcl as (clicks & Hcl).
  assert (Hlc : length clicks = length qids).
  { unfold apply_click_model_to_labels_and_scores in Hcl.
    apply mapM_length in Hcl. rewrite length_seq in Hcl. congruence. }
  assert (Hfit : rankings_fit (train_qset self) qids rankings).
  { split; [congruence|]. intros i qid r Hqi Hri.
    destruct (Hper i qid Hqi) as (_ & n & l & r' & Hdc & _ & _ & Hri' & Hp).
    rewrite Hri in Hri'. injection Hri' as <-.
    exists n. split; [exact Hdc|].
    rewrite Forall_forall. intros x Hx.
    apply (Permutation_in _ Hp) in Hx. apply in_seq in Hx. lia. }
  assert (Hne : qids <> []) by (intros E; rewrite E in Hlen; simpl in Hlen; lia).
  destruct (generate_training_data_succeeds_aux self qids clicks rankings
              Hne Hfit Hlc Hf) as (otd & Hgen).
  exists otd. unfold OnlineLTR_collect_feedback. rewrite Hglr, Hcl. exact Hgen.
Qed.

(** ** What the evaluator hands to the metric *)



(** ** The validation batch of [update_ranker] *)

(** X19. With early stopping requested, [update_ranker] samples as many
    validation queries as the most recent collection had training queries,
    whatever the earlier collections held, and fits with an evaluation set
    that has one group size per sampled query; on a validation collection
    whose row offsets stay within its feature matrix and relevance vector,
    the validation rows and labels are both as many as the group sizes add
    up to. *)
Theorem validation_batch_matches_last_collection (self : OnlineLTR Row)
    (ranker_params : RankerParams) (fit_params : FitParams) (d : Draws Noise)
    (fitted : Ranker) :
  has_early_stopping_rounds fit_params = true ->
  numpy_contract d ->
  features_cover (valid_qset self) -> rows_cover (valid_qset self) ->
  OnlineLTR_update_ranker LGBMRanker fit has_early_stopping_rounds self
      ranker_params fit_params d = Ok fitted ->
  exists X y g ranker last_otd valid_X valid_y valid_g,
    training_set self = Ok (X, y, g) /\
    LGBMRanker ranker_params = Some ranker /\
    last_item (observed_training_data self) = Ok last_otd /\
    fit ranker fit_params X y g (Some (valid_X, valid_y, valid_g))
      = Some fitted /\
    length valid_g = length (otd_indices last_otd) /\
    length valid_X = list_sum valid_g /\
    length valid_y = list_sum valid_g.
Proof.
  intros Hes Hd Hf Hr H. unfold OnlineLTR_update_ranker in H.
  apply bind_ok in H. destruct H as ([[X y] g] & Hts & H).
  apply bind_ok in H. destruct H as (ranker & Hnew & H).
  apply called_ok in Hnew. rewrite Hes in H.
  apply bind_ok in H. destruct H as (last_otd & Hlast & H).
  apply bind_ok in H. destruct H as (vids & Hvids & H).
  apply bind_ok in H. destruct H as (rels & Hrels & H).
  apply bind_ok in H. destruct H as (valid_y & Hvy & H).
  apply bind_ok in H. destruct H as (sub & Hsub & H).
  apply bind_ok in H. destruct H as (valid_g & Hvg & H).
  apply called_ok in H.
  exists X, y, g, ranker, last_otd, (feature_vectors sub), valid_y, valid_g.
  repeat split; auto.
  - rewrite (mapM_length _ _ _ Hvg).
    eapply sample_query_ids_length; eauto.
  - destruct (select_row_counts _ _ _ _ Hf Hr Hsub Hvg) as (Hlf & _ & _).
    exact Hlf.
  - destruct (select_row_counts _ _ _ _ Hf Hr Hsub Hvg) as (_ & Hlr & _).
    rewrite <- Hlr. unfold select in Hsub.
    apply bind_ok in Hsub. destruct Hsub as (ranges & Hranges & Hsub).
    injection Hsub as <-. simpl.
    destruct (query_range_widths _ _ _ Hranges) as (_ & Hrel & _).
    rewrite Hrels in Hrel. injection Hrel as ->.
    destruct ranges; simpl in Hvy; [discriminate|].
    injection Hvy as <-. reflexivity.
Qed.
End PipelineProperties.

(** * The properties at work on the concrete setting *)

Lemma ex_draws_contract : numpy_contract ex_draws.
Proof.
  unfold numpy_contract, ex_draws; simpl. repeat split.
  - rewrite length_map, length_seq. reflexivity.
  - rewrite Forall_forall. intros i Hi. apply in_map_iff in Hi.
    destruct Hi as (j & <- & Hj). apply in_seq in Hj.
    destruct H as [Ha|Hs]; [apply Nat.mod_upper_bound; lia | lia].
  - intros i n. apply Permutation_sym, Permutation_rev.
  - intros n. apply repeat_length.
Qed.

Lemma ex_draws_crash_contract : numpy_contract ex_draws_crash.
Proof.
  destruct ex_draws_contract as (H1 & H2 & H3). repeat split.
  - apply H1; assumption.
  - apply H1; assumption.
  - exact H2.
  - exact H3.
Qed.

(** The truncation rule, [np.lexsort] and [np.mean] on small inputs. *)

Example last_observed_after_last_click :
  last_observed [0; 1; 0; 1; 0]%Z = Ok 4.
Proof. reflexivity. Qed.

Example last_observed_without_click :
  last_observed [0; 0; 0]%Z = Ok 3.
Proof. reflexivity. Qed.

Example np_lexsort_distinct_scores :
  np_lexsort [0; 0; 0]%Z (map Z.opp [1; 3; 2]%Z) = Ok [1; 2; 0].
Proof. reflexivity. Qed.

Example np_lexsort_tied_scores :
  np_lexsort [3; 1; 2]%Z (map Z.opp [5; 5; 5]%Z) = Ok [1; 2; 0].
Proof. reflexivity. Qed.

Example np_lexsort_score_then_tie_breaker :
  np_lexsort [3; 1; 2; 0]%Z (map Z.opp [5; 5; 7; 5]%Z) = Ok [2; 3; 1; 0].
Proof. reflexivity. Qed.

Example np_mean_of_three_halves :
  np_mean [0x1p-1; 0x1p-1; 0x1p-1]%float = 0x1p-1%float.
Proof. vm_compute. reflexivity. Qed.

(** With no ranker and a threshold of 0 the schedule hands [None] on: the
    caller's [None] makes round 0 exploratory at any threshold. *)
Example schedule_hands_on_none :
  ranker_ (ExploreThenExploitOLTR_init ex_qset 0 ex_qset ex_qset) (@None Z)
    = None.
Proof. reflexivity. Qed.

Example schedule_explores_below_threshold :
  ranker_ (ExploreThenExploitOLTR_init ex_qset 3 ex_qset ex_qset) (Some 1%Z)
    = None.
Proof. reflexivity. Qed.

Example schedule_exploits_from_threshold :
  ranker_ (ExploreThenExploitOLTR_init ex_qset 0 ex_qset ex_qset) (Some 1%Z)
    = Some 1%Z.
Proof. reflexivity. Qed.

Ltac each_element :=
  repeat first [ apply Forall_nil | apply Forall_cons
               | apply Forall2_nil | apply Forall2_cons ];
  try solve [ simpl; lia | reflexivity | exact ex_draws_contract
            | exact ex_draws_crash_contract ].

(** C3 on two click vectors: a click on the first of two positions, and no
    click on three positions. *)
Lemma truncation_at_last_click_witness :
  Forall binary [[1; 0]; [0; 0; 0]]%Z /\
  Forall2 (fun click ranking => length click = length ranking)
          [[1; 0]; [0; 0; 0]]%Z [[1; 0]; [2; 1; 0]] /\
  exists last_pos train_labels,
    truncate_clicks [[1; 0]; [0; 0; 0]]%Z = Ok (last_pos, train_labels) /\
    (forall i click ranking,
       nth_error [[1; 0]; [0; 0; 0]]%Z i = Some click ->
       nth_error [[1; 0]; [2; 1; 0]] i = Some ranking ->
       exists t,
         nth_error last_pos i = Some t /\
         nth_error train_labels i = Some (firstn t click) /\
         (In 1%Z click -> exists j, is_last_one click j /\ t = j + 1) /\
         (Forall (fun c => c = 0%Z) click -> t = length ranking)) /\
    (forall self',
       generate_training_data_from_clicks ex_learner [0; 1]
           [[1; 0]; [0; 0; 0]]%Z [[1; 0]; [2; 1; 0]] = (Ok tt, self') ->
       exists train_indices sizes,
         observed_training_data self' =
           observed_training_data ex_learner ++
           [(train_indices, concat train_labels, sizes)]).
Proof.
  assert (H1 : Forall binary [[1; 0]; [0; 0; 0]]%Z)
    by (unfold binary; each_element).
  assert (H2 : Forall2 (fun click ranking => length click = length ranking)
                       [[1; 0]; [0; 0; 0]]%Z [[1; 0]; [2; 1; 0]])
    by each_element.
  exact (conj H1 (conj H2 (truncation_at_last_click _ _ _ _ _ H1 H2))).
Defined.

(** C4 on one exploratory collection over both queries: the kept rows 1 and
    4 lie in the ranges [0, 2) and [2, 5). *)
Lemma remapped_rows_within_query_range_witness :
  numpy_contract ex_draws /\
  OnlineLTR_collect_feedback ex_predict ex_get_click ex_learner None 2 tt ex_draws
    = (Ok tt, ex_learner_1) /\
  exists otd query_ids,
    observed_training_data ex_learner_1
      = observed_training_data ex_learner ++ [otd] /\
    sample_query_ids ex_learner 2 "train" ex_draws = Ok query_ids /\
    length (otd_indices otd) = length query_ids /\
    forall i qid,
      nth_error query_ids i = Some qid ->
      exists inds s e,
        nth_error (otd_indices otd) i = Some inds /\
        nth_error (query_indptr (train_qset ex_learner)) qid = Some s /\
        nth_error (query_indptr (train_qset ex_learner)) (S qid) = Some e /\
        Forall (fun g => s <= g < e) inds.
Proof.
  assert (H : OnlineLTR_collect_feedback ex_predict ex_get_click ex_learner
                None 2 tt ex_draws = (Ok tt, ex_learner_1)) by reflexivity.
  exact (conj ex_draws_contract
           (conj H (remapped_rows_within_query_range _ _ _ _ ex_predict
                      ex_get_click _ _ _ _ _ _ ex_draws_contract H))).
Defined.

(** C5 on the ranker of weight 1: the documents of each query come out by
    descending feature. *)
Lemma exploitation_rankings_ordered_witness :
  OnlineLTR_get_labels_and_rankings ex_predict ex_learner (Some 1%Z) 2 ex_draws
    = Ok ([0; 1], [[0; 1]; [2; 0; 1]]%Z, [[1; 0]; [2; 1; 0]]) /\
  exists sub scores n_docs_per_query,
    select (train_qset ex_learner) [0; 1] = Ok sub /\
    ex_predict 1%Z (feature_vectors sub) = Some scores /\
    mapM (document_count (train_qset ex_learner)) [0; 1] = Ok n_docs_per_query /\
    length [[1; 0]; [2; 1; 0]] = 2 /\
    forall i r, nth_error [[1; 0]; [2; 1; 0]] i = Some r ->
      exists s e,
        nth_error (0 :: np_cumsum n_docs_per_query) i = Some s /\
        nth_error (0 :: np_cumsum n_docs_per_query) (S i) = Some e /\
        exploitation_order (slice s e scores)
                           (slice s e (rand ex_draws (length scores))) r.
Proof.
  assert (H : OnlineLTR_get_labels_and_rankings ex_predict ex_learner
                (Some 1%Z) 2 ex_draws
              = Ok ([0; 1], [[0; 1]; [2; 0; 1]]%Z, [[1; 0]; [2; 1; 0]]))
    by reflexivity.
  exact (conj H (exploitation_rankings_ordered _ _ _ ex_predict _ _ _ _ _ _ _ H)).
Defined.

Ltac each_position :=
  let i := fresh "i" in
  intros i; intros;
  repeat (destruct i as [|i]; simpl in *; try discriminate);
  repeat match goal with
         | H : Some _ = Some _ |- _ => injection H as H; subst
         end.




(** C6 as the code has it, on a click model that crashes at the second
    query. *)
Lemma failed_collection_appends_nothing_witness :
  OnlineLTR_collect_feedback ex_predict ex_get_click ex_learner None 2 tt
      ex_draws_crash = (Raise CollaboratorFailure, ex_learner) /\
  ex_learner = ex_learner /\
  observed_training_data ex_learner = observed_training_data ex_learner.
Proof.
  assert (H : OnlineLTR_collect_feedback ex_predict ex_get_click ex_learner
                None 2 tt ex_draws_crash
              = (Raise CollaboratorFailure, ex_learner)) by reflexivity.
  exact (conj H (failed_collection_appends_nothing _ _ _ _ ex_predict
                   ex_get_click _ _ _ _ _ _ _ H)).
Defined.

(** C6 as stated fails: the click model has answered for the first sampled
    query when it crashes on the second, and the history holds no entry for
    the first query afterwards. *)
Lemma processed_query_entry_counterexample :
  ex_get_click tt (noise ex_draws_crash 0) [1; 0]%Z = Some [1; 0]%Z /\
  ex_get_click tt (noise ex_draws_crash 1) [1; 0; 2]%Z = None /\
  OnlineLTR_collect_feedback ex_predict ex_get_click ex_learner None 2 tt
      ex_draws_crash = (Raise CollaboratorFailure, ex_learner) /\
  observed_training_data ex_learner = [] /\
  n_batches (observed_training_data ex_learner) = 0.
Proof. repeat split; reflexivity. Qed.






(** * The further properties at work on the concrete setting *)

Lemma ex_get_click_length_preserving : length_preserving ex_get_click.
Proof.
  intros cm crash labels clicks. unfold ex_get_click.
  destruct crash; [discriminate|].
  destruct labels; intros H; injection H as <-; simpl;
    rewrite ?length_map; reflexivity.
Qed.

Lemma ex_predict_one_score_per_row : one_score_per_row ex_predict.
Proof.
  intros w X scores H. injection H as <-. apply length_map.
Qed.

Lemma ex_features_cover : features_cover ex_qset.
Proof. unfold features_cover. each_element. Qed.

Lemma ex_rows_cover : rows_cover ex_qset.
Proof. unfold rows_cover. each_element. Qed.

Lemma ex_rankings_fit :
  rankings_fit (train_qset ex_learner) [0; 1] [[1; 0]; [2; 1; 0]].
Proof.
  split; [reflexivity|].
  each_position; eexists; (split; [reflexivity | each_element]).
Qed.

Lemma ex_click_model_answers :
  forall i labels, ex_get_click tt (noise ex_draws i) labels <> None.
Proof. intros i labels. simpl. discriminate. Qed.

(** X4 on the ranker of weight 1. *)
Lemma collection_of_no_query_fails_witness :
  numpy_contract ex_draws /\
  exists e,
    (e = ValueError_concatenate \/
     (Some 1%Z <> None /\ e = CollaboratorFailure)) /\
    OnlineLTR_collect_feedback ex_predict ex_get_click ex_learner (Some 1%Z) 0
        tt ex_draws = (Raise e, ex_learner) /\
    OnlineLTR_update_learner ex_predict ex_get_click ex_LGBMRanker ex_fit
        ex_has_early_stopping_rounds ex_learner (Some 1%Z) 0 tt tt false
        ex_draws ex_draws = (Raise e, ex_learner).
Proof.
  exact (conj ex_draws_contract
           (collection_of_no_query_fails _ _ _ _ _ _ ex_predict ex_get_click
              ex_LGBMRanker ex_fit ex_has_early_stopping_rounds ex_learner
              (Some 1%Z) tt tt false ex_draws ex_draws ex_draws_contract)).
Defined.

(** X5 on a round whose LightGBM constructor raises. *)
Lemma failed_retraining_keeps_feedback_witness :
  OnlineLTR_update_learner ex_predict ex_get_click ex_LGBMRanker_crash ex_fit
      ex_has_early_stopping_rounds ex_learner None 2 tt tt false ex_draws
      ex_draws = (Raise CollaboratorFailure, ex_learner_1) /\
  ((OnlineLTR_collect_feedback ex_predict ex_get_click ex_learner None 2 tt
      ex_draws = (Raise CollaboratorFailure, ex_learner) /\
    ex_learner_1 = ex_learner) \/
   (OnlineLTR_collect_feedback ex_predict ex_get_click ex_learner None 2 tt
      ex_draws = (Ok tt, ex_learner_1) /\
    OnlineLTR_update_ranker ex_LGBMRanker_crash ex_fit
      ex_has_early_stopping_rounds ex_learner_1 tt false ex_draws
      = Raise CollaboratorFailure /\
    exists otd, observed_training_data ex_learner_1
                  = observed_training_data ex_learner ++ [otd])).
Proof.
  assert (H : OnlineLTR_update_learner ex_predict ex_get_click
                ex_LGBMRanker_crash ex_fit ex_has_early_stopping_rounds
                ex_learner None 2 tt tt false ex_draws ex_draws
              = (Raise CollaboratorFailure, ex_learner_1)) by reflexivity.
  exact (conj H (failed_retraining_keeps_feedback _ _ _ _ _ _ ex_predict
                   ex_get_click ex_LGBMRanker_crash ex_fit
                   ex_has_early_stopping_rounds _ _ _ _ _ _ _ _ _ _ H)).
Defined.

(** X6 on the same failure, for the explore-then-exploit learner. *)
Lemma failed_round_and_schedule_witness :
  ExploreThenExploitOLTR_update_learner ex_predict ex_get_click
      ex_LGBMRanker_crash ex_fit ex_has_early_stopping_rounds ex_ete None 2 tt
      tt false ex_draws ex_draws
    = (Raise CollaboratorFailure, ex_ete_failed_fit) /\
  ((fst (ExploreThenExploitOLTR_collect_feedback ex_predict ex_get_click
           ex_ete None 2 tt ex_draws) = Raise CollaboratorFailure /\
    ex_ete_failed_fit = ex_ete) \/
   (fst (ExploreThenExploitOLTR_collect_feedback ex_predict ex_get_click
           ex_ete None 2 tt ex_draws) = Ok tt /\
    iteration ex_ete_failed_fit = (iteration ex_ete + 1)%Z /\
    exists otd, observed_training_data (base ex_ete_failed_fit)
                  = observed_training_data (base ex_ete) ++ [otd])).
Proof.
  assert (H : ExploreThenExploitOLTR_update_learner ex_predict ex_get_click
                ex_LGBMRanker_crash ex_fit ex_has_early_stopping_rounds ex_ete
                None 2 tt tt false ex_draws ex_draws
              = (Raise CollaboratorFailure, ex_ete_failed_fit)) by reflexivity.
  exact (conj H (failed_round_and_schedule _ _ _ _ _ _ ex_predict ex_get_click
                   ex_LGBMRanker_crash ex_fit ex_has_early_stopping_rounds
                   _ _ _ _ _ _ _ _ _ _ H)).
Defined.

(** X8 on the two queries of the scenario, shown in reverse order. *)
Lemma clicks_follow_display_order_witness :
  apply_click_model_to_labels_and_scores ex_get_click tt
      [[0; 1]; [2; 0; 1]]%Z [[1; 0]; [2; 1; 0]] ex_draws
    = Ok [[1; 0]; [1; 0; 0]]%Z /\
  length [[1; 0]; [1; 0; 0]]%Z = length [[1; 0]; [2; 1; 0]] /\
  forall i r, nth_error [[1; 0]; [2; 1; 0]] i = Some r ->
    exists l click,
      nth_error [[0; 1]; [2; 0; 1]]%Z i = Some l /\
      Forall (fun j => j < length l) r /\
      ex_get_click tt (noise ex_draws i) (map (fun j => nth j l 0%Z) r)
        = Some click /\
      nth_error [[1; 0]; [1; 0; 0]]%Z i = Some click.
Proof.
  assert (H : apply_click_model_to_labels_and_scores ex_get_click tt
                [[0; 1]; [2; 0; 1]]%Z [[1; 0]; [2; 1; 0]] ex_draws
              = Ok [[1; 0]; [1; 0; 0]]%Z) by reflexivity.
  exact (conj H (clicks_follow_display_order _ _ ex_get_click _ _ _ _ _ H)).
Defined.

(** X9 on an exploratory sample of both queries. *)
Lemma exploration_rankings_are_permutations_witness :
  numpy_contract ex_draws /\
  OnlineLTR_get_labels_and_rankings ex_predict ex_learner None 2 ex_draws
    = Ok ([0; 1], [[0; 1]; [2; 0; 1]]%Z, [[1; 0]; [2; 1; 0]]) /\
  length [0; 1] = 2 /\
  length [[0; 1]; [2; 0; 1]]%Z = 2 /\
  length [[1; 0]; [2; 1; 0]] = 2 /\
  forall i qid, nth_error [0; 1] i = Some qid ->
    qid < n_queries (train_qset ex_learner) /\
    exists n l r,
      document_count (train_qset ex_learner) qid = Ok n /\
      query_relevance_scores (train_qset ex_learner) qid = Ok l /\
      nth_error [[0; 1]; [2; 0; 1]]%Z i = Some l /\
      nth_error [[1; 0]; [2; 1; 0]] i = Some r /\
      Permutation r (seq 0 n).
Proof.
  assert (H : OnlineLTR_get_labels_and_rankings ex_predict ex_learner None 2
                ex_draws
              = Ok ([0; 1], [[0; 1]; [2; 0; 1]]%Z, [[1; 0]; [2; 1; 0]]))
    by reflexivity.
  exact (conj ex_draws_contract
           (conj H (exploration_rankings_are_permutations _ _ _ ex_predict
                      _ _ _ _ _ _ ex_draws_contract H))).
Defined.

(** X10 on one exploratory collection. *)
Lemma appended_entry_is_consistent_witness :
  numpy_contract ex_draws /\
  length_preserving ex_get_click /\
  OnlineLTR_collect_feedback ex_predict ex_get_click ex_learner None 2 tt
      ex_draws = (Ok tt, ex_learner_1) /\
  exists otd,
    observed_training_data ex_learner_1
      = observed_training_data ex_learner ++ [otd] /\
    entry_consistent otd /\
    length (otd_sizes otd) = 2.
Proof.
  assert (H : OnlineLTR_collect_feedback ex_predict ex_get_click ex_learner
                None 2 tt ex_draws = (Ok tt, ex_learner_1)) by reflexivity.
  exact (conj ex_draws_contract (conj ex_get_click_length_preserving
           (conj H (appended_entry_is_consistent _ _ _ _ ex_predict
                      ex_get_click _ _ _ _ _ _ ex_draws_contract
                      ex_get_click_length_preserving H)))).
Defined.

(** X11 on a collection of two queries followed by one of three. *)
Lemma training_set_is_consistent_witness :
  Forall entry_consistent (observed_training_data ex_learner) /\
  Forall (fun c => numpy_contract (call_draws c))
         [ex_collection 2 ex_draws; ex_collection 3 ex_draws] /\
  length_preserving ex_get_click /\
  collect_many ex_predict ex_get_click ex_learner
      [ex_collection 2 ex_draws; ex_collection 3 ex_draws]
    = (Ok tt, ex_learner_2) /\
  Forall entry_consistent (observed_training_data ex_learner_2) /\
  forall X y g, training_set ex_learner_2 = Ok (X, y, g) ->
    length X = list_sum g /\ length y = list_sum g.
Proof.
  assert (H0 : Forall entry_consistent (observed_training_data ex_learner))
    by constructor.
  assert (H1 : Forall (fun c => numpy_contract (call_draws c))
                 [ex_collection 2 ex_draws; ex_collection 3 ex_draws])
    by each_element.
  assert (H2 : collect_many ex_predict ex_get_click ex_learner
                 [ex_collection 2 ex_draws; ex_collection 3 ex_draws]
               = (Ok tt, ex_learner_2)) by reflexivity.
  exact (conj H0 (conj H1 (conj ex_get_click_length_preserving
           (conj H2 (training_set_is_consistent _ _ _ _ ex_predict
                       ex_get_click _ _ _ H0 H1
                       ex_get_click_length_preserving H2))))).
Defined.


(** X13 on an empty list of test queries. *)
Lemma evaluate_on_no_query_is_nan_witness :
  eval_collection ex_learner (Some []) "test"
    = Ok {| feature_vectors := []; relevance_scores := [];
            query_indptr := [0] |} /\
  ex_predict 1%Z [] = Some [] /\
  evaluate_ranker ex_predict ex_learner 1%Z (ex_eval_params half) (Some [])
      "test" ex_draws = Ok PrimFloat.nan.
Proof.
  assert (H1 : eval_collection ex_learner (Some []) "test"
               = Ok {| feature_vectors := []; relevance_scores := [];
                       query_indptr := [0] |}) by reflexivity.
  assert (H3 : ex_predict 1%Z [] = Some []) by reflexivity.
  exact (conj H1 (conj H3
           (proj1 (evaluate_on_no_query_is_nan _ _ _ ex_predict ex_learner 1%Z
                     (ex_eval_params half) (Some []) "test"%string ex_draws
                     _ _ H1 eq_refl H3)))).
Defined.

(** X14 on the keyword ['dev']. *)
Lemma unknown_data_keyword_witness :
  "dev"%string <> "train"%string /\ "dev"%string <> "valid"%string /\
  "dev"%string <> "test"%string /\
  sample_query_ids ex_learner 2 "dev" ex_draws
    = sample_query_ids ex_learner 2 "train" ex_draws /\
  eval_collection ex_learner None "dev" = eval_collection ex_learner None "test" /\
  eval_collection ex_learner None "dev" = Ok (test_qset ex_learner).
Proof.
  assert (H1 : "dev"%string <> "train"%string) by discriminate.
  assert (H2 : "dev"%string <> "valid"%string) by discriminate.
  assert (H3 : "dev"%string <> "test"%string) by discriminate.
  exact (conj H1 (conj H2 (conj H3
           (unknown_data_keyword _ _ ex_learner 2 "dev"%string ex_draws
              H1 H2 H3)))).
Defined.

(** X15 on the ranker of weight 1. *)
Lemma exploitation_rankings_are_permutations_witness :
  numpy_contract ex_draws /\
  one_score_per_row ex_predict /\
  features_cover (train_qset ex_learner) /\ rows_cover (train_qset ex_learner) /\
  OnlineLTR_get_labels_and_rankings ex_predict ex_learner (Some 1%Z) 2 ex_draws
    = Ok ([0; 1], [[0; 1]; [2; 0; 1]]%Z, [[1; 0]; [2; 1; 0]]) /\
  length [0; 1] = 2 /\
  forall i qid, nth_error [0; 1] i = Some qid ->
    exists n l r,
      document_count (train_qset ex_learner) qid = Ok n /\
      nth_error [[0; 1]; [2; 0; 1]]%Z i = Some l /\ length l = n /\
      nth_error [[1; 0]; [2; 1; 0]] i = Some r /\
      Permutation r (seq 0 n).
Proof.
  assert (H : OnlineLTR_get_labels_and_rankings ex_predict ex_learner
                (Some 1%Z) 2 ex_draws
              = Ok ([0; 1], [[0; 1]; [2; 0; 1]]%Z, [[1; 0]; [2; 1; 0]]))
    by reflexivity.
  exact (conj ex_draws_contract (conj ex_predict_one_score_per_row
           (conj ex_features_cover (conj ex_rows_cover (conj H
              (exploitation_rankings_are_permutations _ _ _ ex_predict
                 ex_learner _ _ _ _ _ _ ex_draws_contract
                 ex_predict_one_score_per_row ex_features_cover
                 ex_rows_cover H)))))).
Defined.

(** X16 on the two queries of the scenario. *)
Lemma generate_training_data_succeeds_witness :
  [0; 1] <> [] /\
  rankings_fit (train_qset ex_learner) [0; 1] [[1; 0]; [2; 1; 0]] /\
  length [[1; 0]; [1; 0; 0]]%Z = length [0; 1] /\
  features_cover (train_qset ex_learner) /\
  exists otd,
    generate_training_data_from_clicks ex_learner [0; 1]
        [[1; 0]; [1; 0; 0]]%Z [[1; 0]; [2; 1; 0]]
      = (Ok tt,
         {| train_qset := train_qset ex_learner;
            valid_qset := valid_qset ex_learner;
            test_qset := test_qset ex_learner;
            observed_training_data :=
              observed_training_data ex_learner ++ [otd] |}).
Proof.
  assert (H1 : [0; 1] <> []) by discriminate.
  assert (H3 : length [[1; 0]; [1; 0; 0]]%Z = length [0; 1]) by reflexivity.
  exact (conj H1 (conj ex_rankings_fit (conj H3 (conj ex_features_cover
           (generate_training_data_succeeds _ ex_learner _ _ _ H1
              ex_rankings_fit H3 ex_features_cover))))).
Defined.

(** X17 on an exploratory collection of two queries. *)
Lemma exploratory_collection_succeeds_witness :
  numpy_contract ex_draws /\
  0 < n_queries (train_qset ex_learner) /\
  1 <= 2 /\
  features_cover (train_qset ex_learner) /\ rows_cover (train_qset ex_learner) /\
  (forall i labels, ex_get_click tt (noise ex_draws i) labels <> None) /\
  exists otd,
    OnlineLTR_collect_feedback ex_predict ex_get_click ex_learner None 2 tt
        ex_draws
      = (Ok tt,
         {| train_qset := train_qset ex_learner;
            valid_qset := valid_qset ex_learner;
            test_qset := test_qset ex_learner;
            observed_training_data :=
              observed_training_data ex_learner ++ [otd] |}).
Proof.
  assert (H2 : 0 < n_queries (train_qset ex_learner)) by (vm_compute; lia).
  assert (H3 : 1 <= 2) by lia.
  exact (conj ex_draws_contract (conj H2 (conj H3 (conj ex_features_cover
           (conj ex_rows_cover (conj ex_click_model_answers
              (exploratory_collection_succeeds _ _ _ _ ex_predict ex_get_click
                 ex_learner 2 tt ex_draws ex_draws_contract H2 H3
                 ex_features_cover ex_rows_cover
                 ex_click_model_answers))))))).
Defined.


(** X19 on the learner after one collection of two queries. *)
Lemma validation_batch_matches_last_collection_witness :
  ex_has_early_stopping_rounds true = true /\
  numpy_contract ex_draws /\
  features_cover (valid_qset ex_learner_1) /\
  rows_cover (valid_qset ex_learner_1) /\
  OnlineLTR_update_ranker ex_LGBMRanker ex_fit ex_has_early_stopping_rounds
      ex_learner_1 tt true ex_draws = Ok 1%Z /\
  exists X y g ranker last_otd valid_X valid_y valid_g,
    training_set ex_learner_1 = Ok (X, y, g) /\
    ex_LGBMRanker tt = Some ranker /\
    last_item (observed_training_data ex_learner_1) = Ok last_otd /\
    ex_fit ranker true X y g (Some (valid_X, valid_y, valid_g)) = Some 1%Z /\
    length valid_g = length (otd_indices last_otd) /\
    length valid_X = list_sum valid_g /\
    length valid_y = list_sum valid_g.
Proof.
  assert (H1 : ex_has_early_stopping_rounds true = true) by reflexivity.
  assert (H5 : OnlineLTR_update_ranker ex_LGBMRanker ex_fit
                 ex_has_early_stopping_rounds ex_learner_1 tt true ex_draws
               = Ok 1%Z) by reflexivity.
  exact (conj H1 (conj ex_draws_contract (conj ex_features_cover
           (conj ex_rows_cover (conj H5
              (validation_batch_matches_last_collection _ _ _ _ _
                 ex_LGBMRanker ex_fit ex_has_early_stopping_rounds
                 ex_learner_1 tt true ex_draws 1%Z H1 ex_draws_contract
                 ex_features_cover ex_rows_cover H5)))))).
Defined.
